(** * ubimkvol: creation of UBI volumes

    A shallow embedding of [ubi-utils/src/ubimkvol.c] (version 1.6): the
    option scan [parse_opt], the validator [param_sanity_check] and the
    driver [main], together with the theorems that settle what the design
    document says about them.

    Data model.  The target is LP64: [int] is 32 bits, [long], [long long]
    and their unsigned variants are 64 bits.  Integers are [Z] with the
    wrap-around of every conversion written out.  Strings are
    [String.string]; a [char *] that may be [NULL] is an [option string].

    Effects.  Everything the program does to the outside (messages, calls
    into libubi) is recorded, in order, in a list of [event]s; a function
    that can also leave the process ([exit]) or be killed by an arithmetic
    trap has type [prog A], a writer over events with three endings. *)

From Stdlib Require Import ZArith List String Ascii Bool Lia.
From Stdlib Require Import DecimalString.
Import ListNotations.

Local Open Scope string_scope.
Local Open Scope Z_scope.

(** ** Machine integers *)

Definition INT_BITS : Z := 32.
Definition LLONG_BITS : Z := 64.
Definition ULLONG_MAX : Z := 2 ^ 64 - 1.
Definition ULONG_MAX : Z := 2 ^ 64 - 1.
Definition LLONG_MAX : Z := 2 ^ 63 - 1.
Definition LLONG_MIN : Z := - 2 ^ 63.

(** Conversion of an integer to a signed type of [w] bits: the value
    modulo [2^w], read in two's complement. *)
Definition wrap_signed (w : Z) (x : Z) : Z :=
  let m := x mod 2 ^ w in
  if m <? 2 ^ (w - 1) then m else m - 2 ^ w.

Definition to_int (x : Z) : Z := wrap_signed INT_BITS x.
Definition to_llong (x : Z) : Z := wrap_signed LLONG_BITS x.

(** ** Strings as C sees them *)

Definition strlen (s : string) : Z := Z.of_nat (String.length s).

(** [s + n] for a [char *]: the string that starts [n] characters in. *)
Fixpoint str_drop (n : nat) (s : string) : string :=
  match n, s with
  | O, _ => s
  | S n', String _ s' => str_drop n' s'
  | S _, EmptyString => EmptyString
  end.

(** [!strcmp (a, b)] *)
Definition streq (a b : string) : bool := String.eqb a b.

(** [!strncmp (full, pre, strlen (pre))]: [pre] is an initial part of
    [full]. *)
Fixpoint str_prefix (pre full : string) : bool :=
  match pre, full with
  | EmptyString, _ => true
  | String a p, String b f => Ascii.eqb a b && str_prefix p f
  | String _ _, EmptyString => false
  end.

(** ** The C library's [strtoull] and [strtoul], base 0

    White space is skipped, one sign is accepted, then the base is read off
    the prefix: [0x]/[0X] is hexadecimal, a leading [0] octal, anything else
    decimal.  The result is the value and the offset of [endp] in the
    argument; offset 0 is the case [endp == nptr] (nothing converted).  A
    magnitude above the maximum gives the maximum; otherwise a minus sign
    negates the value in the unsigned type. *)

Definition isspace (c : ascii) : bool :=
  let n := Z.of_nat (nat_of_ascii c) in
  (n =? 32) || ((9 <=? n) && (n <=? 13)).

Fixpoint count_space (s : string) : nat :=
  match s with
  | String c s' => if isspace c then S (count_space s') else O
  | EmptyString => O
  end.

Definition digit_val (c : ascii) : option Z :=
  let n := Z.of_nat (nat_of_ascii c) in
  if (48 <=? n) && (n <=? 57) then Some (n - 48)
  else if (97 <=? n) && (n <=? 122) then Some (n - 97 + 10)
  else if (65 <=? n) && (n <=? 90) then Some (n - 65 + 10)
  else None.

(** The digits of [base] at the head of [s]: their value on top of [acc],
    and how many there are. *)
Fixpoint scan_digits (base : Z) (s : string) (acc : Z) : Z * nat :=
  match s with
  | String c s' =>
      match digit_val c with
      | Some d =>
          if d <? base
          then let (v, n) := scan_digits base s' (acc * base + d) in (v, S n)
          else (acc, O)
      | None => (acc, O)
      end
  | EmptyString => (acc, O)
  end.

Definition sign_of (s : string) : bool * nat :=
  match s with
  | String "-" _ => (true, 1%nat)
  | String "+" _ => (false, 1%nat)
  | _ => (false, O)
  end.

Definition base_of (s : string) : Z * nat :=
  match s with
  | String "0" (String "x" _) => (16, 2%nat)
  | String "0" (String "X" _) => (16, 2%nat)
  | String "0" _ => (8, O)
  | _ => (10, O)
  end.

Definition strtou (umax : Z) (nptr : string) : Z * nat :=
  let i := count_space nptr in
  let s1 := str_drop i nptr in
  let (neg, j) := sign_of s1 in
  let s2 := str_drop j s1 in
  let (base, k) := base_of s2 in
  let (v, n) := scan_digits base (str_drop k s2) 0 in
  match n with
  | O =>
      (* no digit: "0x" without a hexadecimal digit converts the "0" *)
      match k with
      | O => (0, O)
      | _ => (0, (i + j + 1)%nat)
      end
  | _ =>
      (if umax <? v then umax
       else if neg then (- v) mod (umax + 1)
       else v,
       (i + j + k + n)%nat)
  end.

Definition strtoull (nptr : string) : Z * nat := strtou ULLONG_MAX nptr.
Definition strtoul (nptr : string) : Z * nat := strtou ULONG_MAX nptr.

(** [printf ("%d", n)] *)
Definition decimal (n : Z) : string := NilZero.string_of_int (Z.to_int n).

(** ** The C library's [getopt_long]

    The program hands [getopt_long] the option string and the table below.
    The scan is the GNU one with [POSIXLY_CORRECT] unset: element 0 of the
    vector it receives is taken for the program name and never looked at,
    elements that are not options are stepped over, a bare "--" ends the
    scan.  What successive calls return is modelled as the list of their
    results, in order; the end of the list is the [-1] that ends the loop. *)

Record long_option := {
  opt_name : string;
  has_arg : Z;
  val : ascii
}.

Definition long_options : list long_option := [
  {| opt_name := "alignment"; has_arg := 1; val := "a" |};
  {| opt_name := "devn";      has_arg := 1; val := "d" |};
  {| opt_name := "vol_id";    has_arg := 1; val := "n" |};
  {| opt_name := "name";      has_arg := 1; val := "N" |};
  {| opt_name := "size";      has_arg := 1; val := "s" |};
  {| opt_name := "type";      has_arg := 1; val := "t" |};
  {| opt_name := "help";      has_arg := 0; val := "h" |};
  {| opt_name := "version";   has_arg := 0; val := "V" |};
  {| opt_name := "maxavsize"; has_arg := 0; val := "m" |}
]%char.

Definition optstring : string := "a:d:n:N:s:t:hVm".

(** One result of [getopt_long]: the value it returns and [optarg].  For an
    option without argument [optarg] is not set by the call and not read by
    the program; the model leaves it empty. *)
Record getopt_result := {
  key : ascii;
  optarg : string
}.

Definition unknown : getopt_result := {| key := "?"; optarg := "" |}.

(** Where [c] stands in the option string: [None] when it is not an option
    character, otherwise whether a colon follows it. *)
Fixpoint optstring_find (c : ascii) (s : string) : option bool :=
  match s with
  | EmptyString => None
  | String x s' =>
      if Ascii.eqb x c
      then Some match s' with String ":" _ => true | _ => false end
      else optstring_find c s'
  end.

Definition short_lookup (c : ascii) : option bool :=
  if Ascii.eqb c ":" || Ascii.eqb c ";" then None
  else optstring_find c optstring.

(** The characters after the dash of one element.  [next] is the element
    that follows, if any; the boolean tells whether it was taken as the
    argument of the last option of the group. *)
Fixpoint short_options (s : string) (next : option string)
  : list getopt_result * bool :=
  match s with
  | EmptyString => ([], false)
  | String c s' =>
      match short_lookup c with
      | None =>
          let (rs, used) := short_options s' next in (unknown :: rs, used)
      | Some false =>
          let (rs, used) := short_options s' next in
          ({| key := c; optarg := "" |} :: rs, used)
      | Some true =>
          match s', next with
          | String _ _, _ => ([{| key := c; optarg := s' |}], false)
          | EmptyString, Some a => ([{| key := c; optarg := a |}], true)
          | EmptyString, None => ([unknown], false)
          end
      end
  end.

(** The name of a long option: what precedes the first '=', and what
    follows it when there is one. *)
Fixpoint split_eq (s : string) : string * option string :=
  match s with
  | EmptyString => (EmptyString, None)
  | String "=" s' => (EmptyString, Some s')
  | String c s' => let (n, v) := split_eq s' in (String c n, v)
  end.

(** An exact match wins; otherwise the name may be abbreviated as long as
    one entry only begins with it (all entries differ in [val]). *)
Definition find_long (nm : string) : option long_option :=
  match filter (fun o => streq o.(opt_name) nm) long_options with
  | o :: _ => Some o
  | [] =>
      match filter (fun o => str_prefix nm o.(opt_name)) long_options with
      | [o] => Some o
      | _ => None
      end
  end.

(** The element "--[s]". *)
Definition long_option_scan (s : string) (next : option string)
  : getopt_result * bool :=
  let (nm, value) := split_eq s in
  match find_long nm with
  | None => (unknown, false)
  | Some o =>
      match value with
      | Some v =>
          if o.(has_arg) =? 0 then (unknown, false)
          else ({| key := o.(val); optarg := v |}, false)
      | None =>
          if o.(has_arg) =? 1 then
            match next with
            | Some a => ({| key := o.(val); optarg := a |}, true)
            | None => (unknown, false)
            end
          else ({| key := o.(val); optarg := "" |}, false)
      end
  end.

(** The scan of the elements that follow element 0. *)
Fixpoint getopt_scan (elems : list string) : list getopt_result :=
  match elems with
  | [] => []
  | e :: rest =>
      let next := match rest with [] => None | a :: _ => Some a end in
      let after (used : bool) :=
        if used
        then match rest with [] => [] | _ :: rest' => getopt_scan rest' end
        else getopt_scan rest in
      match e with
      | String "-" (String "-" EmptyString) => []
      | String "-" (String "-" s) =>
          let (r, used) := long_option_scan s next in r :: after used
      | String "-" (String c s) =>
          let (rs, used) := short_options (String c s) next in
          (rs ++ after used)%list
      | _ => getopt_scan rest
      end
  end.

(** [getopt_long (argc, argv, ...)] called until it returns [-1]. *)
Definition getopt_long (argv : list string) : list getopt_result :=
  getopt_scan (tl argv).

(** ** Programs: a trace of events and how the run ends *)

(** A C object without initialiser holds no value until it is assigned. *)
Inductive cell (A : Type) : Type :=
| Uninit
| Init (a : A).
Arguments Uninit {A}.
Arguments Init {A} a.

(** [enum { UBI_DYNAMIC_VOLUME, UBI_STATIC_VOLUME }] of the UBI headers. *)
Inductive ubi_vol_type := UBI_DYNAMIC_VOLUME | UBI_STATIC_VOLUME.

(** The structures of [libubi.h] as far as the program touches them. *)
Record ubi_info := {
  dev_count : Z
}.

Record ubi_dev_info := {
  dev_num : Z;
  avail_bytes : Z
}.

Record ubi_vol_info := {
  vi_vol_id : Z;
  rsvd_bytes : Z;
  eb_size : Z;
  vi_name : string
}.

(** [struct ubi_mkvol_request req], a local of [main] without
    initialiser. *)
Record ubi_mkvol_request := {
  req_vol_id : cell Z;
  req_alignment : cell Z;
  req_bytes : cell Z;
  req_vol_type : cell ubi_vol_type;
  req_name : cell (option string)
}.

(** The [errmsg] calls of the program, one constructor each. *)
Inductive diag :=
| Bad_volume_type (arg : string)
| Bad_volume_size (arg : string)
| Bad_size_specifier (endp : string)
| Bad_volume_alignment (arg : string)
| Bad_UBI_device_number (arg : string)
| Bad_volume_ID (arg : string)
| Parameter_is_missing
| Volume_size_not_specified
| Volume_name_not_specified
| Cannot_get_UBI_information
| UBI_device_does_not_exist (devn : Z)
| Too_long_name (len : Z)
| Device_name_not_specified
| Too_few_arguments
| Too_long_device_node_name (node : string)
| Cannot_open_libubi
| Cannot_get_device_information (devn : Z) (node : string)
| Cannot_create_volume
| Cannot_get_volume_information.

(** The failure kinds of the design document. *)
Inductive error_kind :=
| InvalidArgument | InvalidSize | InvalidVolumeType | MissingArgument
| UnknownArgument | MissingSize | MissingName | NameTooLong
| DeviceNotFound | DeviceQueryFailed | CreateFailed | PostCreateQueryFailed.

(** Which kind a message reports.  The three checks [main] makes on its
    argument vector and the failure to open libubi have no kind of their
    own in the document. *)
Definition kind_of (d : diag) : option error_kind :=
  match d with
  | Bad_volume_type _ => Some InvalidVolumeType
  | Bad_volume_size _ => Some InvalidSize
  | Bad_size_specifier _ => Some InvalidSize
  | Bad_volume_alignment _ => Some InvalidArgument
  | Bad_UBI_device_number _ => Some InvalidArgument
  | Bad_volume_ID _ => Some InvalidArgument
  | Parameter_is_missing => Some MissingArgument
  | Volume_size_not_specified => Some MissingSize
  | Volume_name_not_specified => Some MissingName
  | Cannot_get_UBI_information => Some DeviceQueryFailed
  | UBI_device_does_not_exist _ => Some DeviceNotFound
  | Too_long_name _ => Some NameTooLong
  | Cannot_get_device_information _ _ => Some DeviceQueryFailed
  | Cannot_create_volume => Some CreateFailed
  | Cannot_get_volume_information => Some PostCreateQueryFailed
  | Device_name_not_specified => None
  | Too_few_arguments => None
  | Too_long_device_node_name _ => None
  | Cannot_open_libubi => None
  end.

Inductive size_unit := GiB | MiB | KiB.

Inductive event :=
(* standard error *)
| Errmsg (d : diag)
| Warnmsg_devn_depricated
| Perror (fn : string)
| Help_text
| Version_text
| Use_h_for_help
(* standard output *)
| Printf_set_volume_size (bytes : cell Z)
| Printf_volume_id (vol_id lebs bytes : Z)
| Printf_size (u : size_unit) (bytes divisor : Z)
| Printf_leb_size (eb_size : Z) (type : cell ubi_vol_type) (name : string)
(* libubi *)
| Call_libubi_open (ok : bool)
| Call_ubi_get_info
| Call_ubi_get_dev_info (node : string)
| Call_ubi_mkvol (node : string) (req : ubi_mkvol_request)
| Call_ubi_get_vol_info1 (dev_num vol_id : Z)
| Call_libubi_close.

Inductive ending (A : Type) : Type :=
| Return (a : A)          (* the function returns [a] *)
| Exit (status : Z)       (* [exit (status)] *)
| Trap.                   (* killed by an arithmetic trap *)
Arguments Return {A} a.
Arguments Exit {A} status.
Arguments Trap {A}.

Definition prog (A : Type) : Type := list event * ending A.

Definition ret {A} (a : A) : prog A := ([], Return a).

Definition bind {A B} (m : prog A) (f : A -> prog B) : prog B :=
  match m with
  | (t, Return a) => let (t', e) := f a in ((t ++ t')%list, e)
  | (t, Exit s) => (t, Exit s)
  | (t, Trap) => (t, Trap)
  end.

Definition emit (e : event) : prog unit := ([e], Return tt).
Definition exit {A} (status : Z) : prog A := ([], Exit status).
Definition trap {A} : prog A := ([], Trap).

Declare Scope prog_scope.
Delimit Scope prog_scope with prog.
Notation "x <- c1 ;; c2" := (bind c1 (fun x => c2))
  (at level 61, c1 at next level, right associativity) : prog_scope.
Notation "' pat <- c1 ;; c2" := (bind c1 (fun pat => c2))
  (at level 61, pat pattern, c1 at next level, right associativity)
  : prog_scope.
Notation "c1 ;; c2" := (bind c1 (fun _ => c2))
  (at level 61, right associativity) : prog_scope.
Local Open Scope prog_scope.

Definition trace_of {A} (p : prog A) : list event := fst p.
Definition ending_of {A} (p : prog A) : ending A := snd p.

Definition errmsg (d : diag) : prog unit := emit (Errmsg d).
Definition perror (fn : string) : prog unit := emit (Perror fn).

(** Division of a [long long]: truncation towards zero; a zero divisor and
    the one quotient that does not fit raise a trap. *)
Definition lldiv (a b : Z) : prog Z :=
  if b =? 0 then trap
  else if (a =? LLONG_MIN) && (b =? -1) then trap
  else ret (Z.quot a b).

(** ** libubi

    The library is outside the program.  A value of [libubi] fixes what
    each of its entry points answers during one run; every entry point is
    called at most once per run, so this covers a device whose state moves
    between the calls. *)
Record libubi := {
  on_open : bool;                                  (* handle is not NULL *)
  on_get_info : Z * ubi_info;
  on_get_dev_info : string -> Z * ubi_dev_info;
  (* the return value, and [req->vol_id] when the call is over *)
  on_mkvol : string -> ubi_mkvol_request -> Z * Z;
  on_get_vol_info1 : Z -> Z -> Z * ubi_vol_info
}.

Definition libubi_open (lib : libubi) : prog bool :=
  emit (Call_libubi_open lib.(on_open)) ;; ret lib.(on_open).

Definition libubi_close (lib : libubi) : prog unit :=
  emit Call_libubi_close.

Definition ubi_get_info (lib : libubi) : prog (Z * ubi_info) :=
  emit Call_ubi_get_info ;; ret lib.(on_get_info).

Definition ubi_get_dev_info (lib : libubi) (node : string)
  : prog (Z * ubi_dev_info) :=
  emit (Call_ubi_get_dev_info node) ;; ret (lib.(on_get_dev_info) node).

Definition ubi_mkvol (lib : libubi) (node : string) (req : ubi_mkvol_request)
  : prog (Z * Z) :=
  emit (Call_ubi_mkvol node req) ;; ret (lib.(on_mkvol) node req).

Definition ubi_get_vol_info1 (lib : libubi) (dev_num vol_id : Z)
  : prog (Z * ubi_vol_info) :=
  emit (Call_ubi_get_vol_info1 dev_num vol_id) ;;
  ret (lib.(on_get_vol_info1) dev_num vol_id).

(** Modelled from the spec: [ubiutils_get_multiplier] of the common helpers,
    which are not part of the sources at hand.  The unit parser of the
    document: no suffix is 1, KiB is 1024, MiB 1024 squared, GiB 1024 cubed,
    anything else an error, for which the caller tests [-1]. *)
Definition ubiutils_get_multiplier (str : string) : Z :=
  if streq str "" then 1
  else if streq str "KiB" then 1024
  else if streq str "MiB" then 1024 * 1024
  else if streq str "GiB" then 1024 * 1024 * 1024
  else -1.

(** ** The program *)

Definition MAX_NODE_LEN : Z := 255.

(** [struct args]: the variables set by command line arguments. *)
Record args := {
  devn : Z;
  vol_id : Z;
  vol_type : ubi_vol_type;
  bytes : Z;
  alignment : Z;
  name : option string;
  nlen : Z;
  node : string;
  maxavs : Z
}.

Definition set_devn (a : args) (v : Z) : args :=
  {| devn := v; vol_id := a.(vol_id); vol_type := a.(vol_type);
     bytes := a.(bytes); alignment := a.(alignment); name := a.(name);
     nlen := a.(nlen); node := a.(node); maxavs := a.(maxavs) |}.
Definition set_vol_id (a : args) (v : Z) : args :=
  {| devn := a.(devn); vol_id := v; vol_type := a.(vol_type);
     bytes := a.(bytes); alignment := a.(alignment); name := a.(name);
     nlen := a.(nlen); node := a.(node); maxavs := a.(maxavs) |}.
Definition set_vol_type (a : args) (v : ubi_vol_type) : args :=
  {| devn := a.(devn); vol_id := a.(vol_id); vol_type := v;
     bytes := a.(bytes); alignment := a.(alignment); name := a.(name);
     nlen := a.(nlen); node := a.(node); maxavs := a.(maxavs) |}.
Definition set_bytes (a : args) (v : Z) : args :=
  {| devn := a.(devn); vol_id := a.(vol_id); vol_type := a.(vol_type);
     bytes := v; alignment := a.(alignment); name := a.(name);
     nlen := a.(nlen); node := a.(node); maxavs := a.(maxavs) |}.
Definition set_alignment (a : args) (v : Z) : args :=
  {| devn := a.(devn); vol_id := a.(vol_id); vol_type := a.(vol_type);
     bytes := a.(bytes); alignment := v; name := a.(name);
     nlen := a.(nlen); node := a.(node); maxavs := a.(maxavs) |}.
Definition set_name (a : args) (v : option string) (n : Z) : args :=
  {| devn := a.(devn); vol_id := a.(vol_id); vol_type := a.(vol_type);
     bytes := a.(bytes); alignment := a.(alignment); name := v;
     nlen := n; node := a.(node); maxavs := a.(maxavs) |}.
Definition set_node (a : args) (v : string) : args :=
  {| devn := a.(devn); vol_id := a.(vol_id); vol_type := a.(vol_type);
     bytes := a.(bytes); alignment := a.(alignment); name := a.(name);
     nlen := a.(nlen); node := v; maxavs := a.(maxavs) |}.
Definition set_maxavs (a : args) (v : Z) : args :=
  {| devn := a.(devn); vol_id := a.(vol_id); vol_type := a.(vol_type);
     bytes := a.(bytes); alignment := a.(alignment); name := a.(name);
     nlen := a.(nlen); node := a.(node); maxavs := v |}.

(** How a [case] of the option switch leaves the loop body. *)
Inductive control :=
| Break                 (* on to the next option *)
| Returns (err : Z).    (* [parse_opt] returns *)

Definition report_unit (rsvd : Z) : size_unit :=
  if rsvd >? 1024 * 1024 * 1024 then GiB
  else if rsvd >? 1024 * 1024 then MiB
  else KiB.

Definition unit_divisor (u : size_unit) : Z :=
  match u with
  | GiB => 1024 * 1024 * 1024
  | MiB => 1024 * 1024
  | KiB => 1024
  end.

Section Ubimkvol.

(** Two constants of the UBI headers, which are not among the sources. *)
Variable UBI_MAX_VOLUME_NAME : Z.
Variable UBI_VOL_NUM_AUTO : Z.

Definition myargs : args := {|
  vol_type := UBI_DYNAMIC_VOLUME;
  devn := -1;
  bytes := 0;
  alignment := 1;
  vol_id := UBI_VOL_NUM_AUTO;
  name := None;
  nlen := 0;
  node := "";
  maxavs := 0
|}.

Definition case_t (a : args) (optarg : string) : prog (control * args) :=
  if streq optarg "dynamic" then
    ret (Break, set_vol_type a UBI_DYNAMIC_VOLUME)
  else if streq optarg "static" then
    ret (Break, set_vol_type a UBI_STATIC_VOLUME)
  else errmsg (Bad_volume_type optarg) ;; ret (Returns (-1), a).

(** The product [args->bytes *= mult] is formed in [long long].  Where it
    does not fit, C leaves the behaviour undefined; the model keeps the low
    64 bits, as the two's complement multiplication of an ordinary build
    does, and it does not count this as a trap. *)
Definition case_s (a : args) (optarg : string) : prog (control * args) :=
  let (v, endp) := strtoull optarg in
  let a := set_bytes a (to_llong v) in
  if (endp =? 0)%nat || (a.(bytes) <? 0) then
    errmsg (Bad_volume_size optarg) ;; ret (Returns (-1), a)
  else
    match str_drop endp optarg with
    | EmptyString => ret (Break, a)
    | rest =>
        let mult := to_int (ubiutils_get_multiplier rest) in
        if mult =? -1 then
          errmsg (Bad_size_specifier rest) ;; ret (Returns (-1), a)
        else ret (Break, set_bytes a (to_llong (a.(bytes) * mult)))
    end.

(** [*endp != '\0' || endp == optarg], shared by the numeric options. *)
Definition not_a_number (optarg : string) (endp : nat) : bool :=
  negb (streq (str_drop endp optarg) "") || (endp =? 0)%nat.

Definition case_a (a : args) (optarg : string) : prog (control * args) :=
  let (v, endp) := strtoul optarg in
  let a := set_alignment a (to_int v) in
  if not_a_number optarg endp || (a.(alignment) <=? 0) then
    errmsg (Bad_volume_alignment optarg) ;; ret (Returns (-1), a)
  else ret (Break, a).

Definition case_d (a : args) (optarg : string) : prog (control * args) :=
  let (v, endp) := strtoul optarg in
  let a := set_devn a (to_int v) in
  if not_a_number optarg endp || (a.(devn) <? 0) then
    errmsg (Bad_UBI_device_number optarg) ;; ret (Returns (-1), a)
  else
    emit Warnmsg_devn_depricated ;;
    ret (Break, set_node a ("/dev/ubi" ++ decimal a.(devn))%string).

Definition case_n (a : args) (optarg : string) : prog (control * args) :=
  let (v, endp) := strtoul optarg in
  let a := set_vol_id a (to_int v) in
  if not_a_number optarg endp || (a.(vol_id) <? 0) then
    errmsg (Bad_volume_ID optarg) ;; ret (Returns (-1), a)
  else ret (Break, a).

Definition case_N (a : args) (optarg : string) : prog (control * args) :=
  ret (Break, set_name a (Some optarg) (to_int (strlen optarg))).

(** The body of the [switch] of [parse_opt]. *)
Definition parse_key (a : args) (r : getopt_result) : prog (control * args) :=
  let k := r.(key) in
  if Ascii.eqb k "t" then case_t a r.(optarg)
  else if Ascii.eqb k "s" then case_s a r.(optarg)
  else if Ascii.eqb k "a" then case_a a r.(optarg)
  else if Ascii.eqb k "d" then case_d a r.(optarg)
  else if Ascii.eqb k "n" then case_n a r.(optarg)
  else if Ascii.eqb k "N" then case_N a r.(optarg)
  else if Ascii.eqb k "h" then emit Help_text ;; exit 0
  else if Ascii.eqb k ":" then
    errmsg Parameter_is_missing ;; ret (Returns (-1), a)
  else if Ascii.eqb k "V" then emit Version_text ;; exit 0
  else if Ascii.eqb k "m" then ret (Break, set_maxavs a 1)
  else emit Use_h_for_help ;; exit (-1).

(** The [while (1)] loop over the results of [getopt_long]. *)
Fixpoint parse_keys (rs : list getopt_result) (a : args) : prog (Z * args) :=
  match rs with
  | [] => ret (0, a)
  | r :: rs' =>
      '(c, a') <- parse_key a r ;;
      match c with
      | Break => parse_keys rs' a'
      | Returns err => ret (err, a')
      end
  end.

Definition parse_opt (argv : list string) (a : args) : prog (Z * args) :=
  parse_keys (getopt_long (tl argv)) a.

Definition param_sanity_check (a : args) (lib : libubi) : prog Z :=
  if (a.(bytes) =? 0) && (a.(maxavs) =? 0) then
    errmsg Volume_size_not_specified ;; ret (-1)
  else
    match a.(name) with
    | None => errmsg Volume_name_not_specified ;; ret (-1)
    | Some nm =>
        '(err, ubi) <- ubi_get_info lib ;;
        if negb (err =? 0) then
          errmsg Cannot_get_UBI_information ;;
          perror "ubi_get_info" ;;
          ret (-1)
        else if a.(devn) >=? to_int ubi.(dev_count) then
          errmsg (UBI_device_does_not_exist a.(devn)) ;; ret (-1)
        else
          let len := to_int (strlen nm) in
          if len >? UBI_MAX_VOLUME_NAME then
            errmsg (Too_long_name len) ;; ret (-1)
          else ret 0
    end.

Definition req_uninit : ubi_mkvol_request := {|
  req_vol_id := Uninit;
  req_alignment := Uninit;
  req_bytes := Uninit;
  req_vol_type := Uninit;
  req_name := Uninit
|}.

Definition set_req_vol_id (req : ubi_mkvol_request) (v : Z)
  : ubi_mkvol_request :=
  {| req_vol_id := Init v; req_alignment := req.(req_alignment);
     req_bytes := req.(req_bytes); req_vol_type := req.(req_vol_type);
     req_name := req.(req_name) |}.

(** The label [out_libubi]. *)
Definition out_libubi (lib : libubi) : prog Z :=
  libubi_close lib ;; ret (-1).

(** The three [printf]s that describe the created volume. *)
Definition report (vol_info : ubi_vol_info) (req : ubi_mkvol_request)
  : prog unit :=
  lebs <- lldiv vol_info.(rsvd_bytes) vol_info.(eb_size) ;;
  emit (Printf_volume_id vol_info.(vi_vol_id) lebs vol_info.(rsvd_bytes)) ;;
  (let u := report_unit vol_info.(rsvd_bytes) in
   emit (Printf_size u vol_info.(rsvd_bytes) (unit_divisor u))) ;;
  emit (Printf_leb_size vol_info.(eb_size) req.(req_vol_type)
          vol_info.(vi_name)).

(** [main] from the call of [libubi_open] on. *)
Definition create (a : args) (lib : libubi) : prog Z :=
  ok <- libubi_open lib ;;
  if negb ok then
    errmsg Cannot_open_libubi ;; perror "libubi_open" ;; ret (-1)
  else
    err <- param_sanity_check a lib ;;
    if negb (err =? 0) then out_libubi lib
    else
      '(err, dev_info) <- ubi_get_dev_info lib a.(node) ;;
      if negb (err =? 0) then
        errmsg (Cannot_get_device_information a.(devn) a.(node)) ;;
        perror "ubi_get_dev_info" ;;
        out_libubi lib
      else
        let req := req_uninit in
        a <- (if negb (a.(maxavs) =? 0) then
                let a := set_bytes a dev_info.(avail_bytes) in
                emit (Printf_set_volume_size req.(req_bytes)) ;; ret a
              else ret a) ;;
        let req := {|
          req_vol_id := Init a.(vol_id);
          req_alignment := Init a.(alignment);
          req_bytes := Init a.(bytes);
          req_vol_type := Init a.(vol_type);
          req_name := Init a.(name)
        |} in
        '(err, id) <- ubi_mkvol lib a.(node) req ;;
        if err <? 0 then
          errmsg Cannot_create_volume ;; perror "ubi_mkvol" ;; out_libubi lib
        else
          (* [req.vol_id] is now what [ubi_mkvol] left there *)
          let req := set_req_vol_id req id in
          let a := set_vol_id a id in
          '(err, vol_info) <-
             ubi_get_vol_info1 lib dev_info.(dev_num) a.(vol_id) ;;
          if negb (err =? 0) then
            errmsg Cannot_get_volume_information ;;
            perror "ubi_get_vol_info1" ;;
            out_libubi lib
          else
            report vol_info req ;;
            libubi_close lib ;;
            ret 0.

Definition main (argv : list string) (lib : libubi) : prog Z :=
  let argc := Z.of_nat (List.length argv) in
  if argc <? 2 then
    errmsg Device_name_not_specified ;; ret (-1)
  else if argc <? 3 then
    errmsg Too_few_arguments ;; ret (-1)
  else
    let argv1 := nth 1 argv "" in
    if strlen argv1 >? MAX_NODE_LEN then
      errmsg (Too_long_device_node_name argv1) ;; ret (-1)
    else
      let a := set_node myargs argv1 in
      '(err, a) <- parse_opt argv a ;;
      if negb (err =? 0) then ret err
      else create a lib.

(** ** Vocabulary of the statements *)

Definition is_close (e : event) : bool :=
  match e with Call_libubi_close => true | _ => false end.

Definition is_libubi_call (e : event) : bool :=
  match e with
  | Call_libubi_open _ | Call_ubi_get_info | Call_ubi_get_dev_info _
  | Call_ubi_mkvol _ _ | Call_ubi_get_vol_info1 _ _ | Call_libubi_close => true
  | _ => false
  end.

(** The complaints about the command line: those of [main] about the
    argument vector and those of the option scan. *)
Definition is_argument_diag (d : diag) : bool :=
  match d with
  | Bad_volume_type _ | Bad_volume_size _ | Bad_size_specifier _
  | Bad_volume_alignment _ | Bad_UBI_device_number _ | Bad_volume_ID _
  | Parameter_is_missing | Device_name_not_specified | Too_few_arguments
  | Too_long_device_node_name _ => true
  | _ => false
  end.

(** What a run may write before it opens libubi: messages on standard
    error about the command line. *)
Definition is_parse_event (e : event) : bool :=
  match e with
  | Errmsg d => is_argument_diag d
  | Warnmsg_devn_depricated | Help_text | Version_text
  | Use_h_for_help => true
  | _ => false
  end.

(** The kinds of the failures reported in a trace, in order. *)
Fixpoint reported (t : list event) : list (option error_kind) :=
  match t with
  | [] => []
  | Errmsg d :: t' => kind_of d :: reported t'
  | _ :: t' => reported t'
  end.

(** The option [k] is among the results of the scan. *)
Definition has_keyb (k : ascii) (rs : list getopt_result) : bool :=
  existsb (fun r => Ascii.eqb r.(key) k) rs.

(** The help or the version flag, as the user writes it. *)
Definition is_help_flag (s : string) : bool :=
  streq s "-h" || streq s "--help".
Definition is_version_flag (s : string) : bool :=
  streq s "-V" || streq s "--version".

(** The five checks of the validator, each as the condition under which it
    is violated. *)
Definition no_size_path (a : args) : bool :=
  (a.(bytes) =? 0) && (a.(maxavs) =? 0).

Definition no_name (a : args) : bool :=
  match a.(name) with None => true | Some _ => false end.

Definition query_failed (lib : libubi) : bool :=
  negb (fst lib.(on_get_info) =? 0).

Definition device_out_of_count (a : args) (lib : libubi) : bool :=
  a.(devn) >=? to_int (snd lib.(on_get_info)).(dev_count).

Definition name_too_long (max : Z) (a : args) : bool :=
  match a.(name) with
  | None => false
  | Some nm => to_int (strlen nm) >? max
  end.

(** The validator in the words of the document: the checks in their fixed
    order, the first one violated names the failure. *)
Definition checks_in_order (max : Z) (a : args) (lib : libubi)
  : list (bool * error_kind) :=
  [ (no_size_path a, MissingSize);
    (no_name a, MissingName);
    (query_failed lib, DeviceQueryFailed);
    (device_out_of_count a lib, DeviceNotFound);
    (name_too_long max a, NameTooLong) ].

Fixpoint first_violated (cs : list (bool * error_kind)) : option error_kind :=
  match cs with
  | [] => None
  | (violated, k) :: cs' => if violated then Some k else first_violated cs'
  end.

(** The argument vector passes the checks [main] makes before it scans the
    options. *)
Definition argv_accepted (argv : list string) : bool :=
  (3 <=? Z.of_nat (List.length argv))
  && (strlen (nth 1 argv "") <=? MAX_NODE_LEN).

(** The configuration the option scan starts from. *)
Definition start (argv : list string) : args :=
  set_node myargs (nth 1 argv "").

(** One option leaves the loop body in one of five ways. *)
Inductive key_outcome (a : args) (r : getopt_result)
  : prog (control * args) -> Prop :=
| Key_break a' w :
    Forall (fun e => e = Warnmsg_devn_depricated) w ->
    (key r <> "s"%char -> bytes a' = bytes a) ->
    (key r <> "d"%char -> devn a' = devn a) ->
    (key r <> "m"%char -> maxavs a' = maxavs a) ->
    (key r = "m"%char -> maxavs a' = 1) ->
    key_outcome a r (w, Return (Break, a'))
| Key_error d a' :
    is_argument_diag d = true ->
    key_outcome a r ([Errmsg d], Return (Returns (-1), a'))
| Key_help :
    key r = "h"%char -> key_outcome a r ([Help_text], Exit 0)
| Key_version :
    key r = "V"%char -> key_outcome a r ([Version_text], Exit 0)
| Key_unknown :
    key_outcome a r ([Use_h_for_help], Exit (-1)).

(** ** A sample device manager *)

(** A device manager with one device "/dev/ubi0": 5000000 bytes free, LEBs
    of [eb] bytes; the created volume gets number 0 and is reported with
    [rsvd] reserved bytes. *)
Definition sample_lib (eb rsvd : Z) : libubi := {|
  on_open := true;
  on_get_info := (0, {| dev_count := 1 |});
  on_get_dev_info := fun nd =>
    if streq nd "/dev/ubi0"
    then (0, {| dev_num := 0; avail_bytes := 5000000 |})
    else (-1, {| dev_num := 0; avail_bytes := 0 |});
  on_mkvol := fun _ _ => (0, 0);
  on_get_vol_info1 := fun _ _ =>
    (0, {| vi_vol_id := 0; rsvd_bytes := rsvd; eb_size := eb;
           vi_name := "data" |})
|}.

(** ** Vocabulary of the further properties *)

(** What the option scan keeps true of the configuration; [nd0] is the
    device node given first on the command line. *)
Definition configured (nd0 : string) (a : args) : Prop :=
  0 < alignment a
  /\ (vol_id a = UBI_VOL_NUM_AUTO \/ 0 <= vol_id a)
  /\ (maxavs a = 0 \/ maxavs a = 1)
  /\ ((devn a = -1 /\ node a = nd0)
      \/ (0 <= devn a /\ node a = ("/dev/ubi" ++ decimal (devn a))%string))
  /\ match name a with
     | None => nlen a = 0
     | Some nm => nlen a = to_int (strlen nm)
     end.

(** The calls into libubi of a run that gets through, in their order;
    [libubi_close] comes last wherever the run stops. *)
Definition calls_in_order (nd : string) (req : ubi_mkvol_request)
  (dn id : Z) : list event :=
  [ Call_ubi_get_info; Call_ubi_get_dev_info nd; Call_ubi_mkvol nd req;
    Call_ubi_get_vol_info1 dn id ].

(** ** What the conversion "%.1f" writes *)

(** The integer nearest to [n / d] for a positive [d], the even one of the
    two when [n / d] lies half way. *)
Definition round_half_even (n d : Z) : Z :=
  let q := n / d in
  let r := n mod d in
  if 2 * r <? d then q
  else if d <? 2 * r then q + 1
  else if Z.even q then q else q + 1.

(** [(double) x] for a [long long]: the value itself while it has at most
    53 bits, beyond that the nearest number with 53 significant bits. *)
Definition to_double (x : Z) : Z :=
  if Z.abs x <? 2 ^ 53 then x
  else
    let e := Z.log2 (Z.abs x) - 52 in
    round_half_even x (2 ^ e) * 2 ^ e.

(** The quotient [(double) bytes / divisor] in tenths, as "%.1f" rounds it;
    the divisors are powers of two, so that the division itself is exact. *)
Definition size_tenths (bytes divisor : Z) : Z :=
  round_half_even (10 * to_double bytes) divisor.

Definition unit_name (u : size_unit) : string :=
  match u with
  | GiB => "GiB"
  | MiB => "MiB"
  | KiB => "KiB"
  end.

(** The sign that "%.1f" writes: a minus for every negative quotient, also
    when it is rounded to zero. *)
Definition sign_text (bytes : Z) : string :=
  if bytes <? 0 then "-" else "".

(** The characters written by the call that [Printf_size u bytes divisor]
    records, [printf ("%.1f GiB)", (double) bytes / divisor)] and its two
    siblings. *)
Definition size_text (u : size_unit) (bytes divisor : Z) : string :=
  let t := Z.abs (size_tenths bytes divisor) in
  (sign_text bytes ++ decimal (t / 10) ++ "." ++ decimal (t mod 10)
   ++ " " ++ unit_name u ++ ")")%string.

(** * Properties *)

(** ** Integers and the C library *)

Lemma to_llong_small n : 0 <= n <= LLONG_MAX -> to_llong n = n.
Proof.
  unfold to_llong, wrap_signed, LLONG_BITS, LLONG_MAX.
  change (2 ^ 64) with 18446744073709551616.
  change (2 ^ (64 - 1)) with 9223372036854775808.
  change (2 ^ 63) with 9223372036854775808.
  intros H. rewrite Z.mod_small by lia.
  destruct (Z.ltb_spec n 9223372036854775808); lia.
Qed.

Lemma to_llong_big n :
  LLONG_MAX < n <= ULLONG_MAX -> to_llong n < 0.
Proof.
  unfold to_llong, wrap_signed, LLONG_BITS, LLONG_MAX, ULLONG_MAX.
  change (2 ^ 64) with 18446744073709551616.
  change (2 ^ (64 - 1)) with 9223372036854775808.
  change (2 ^ 63) with 9223372036854775808.
  intros H. rewrite Z.mod_small by lia.
  destruct (Z.ltb_spec n 9223372036854775808); lia.
Qed.

Lemma digit_val_nonneg c d : digit_val c = Some d -> 0 <= d.
Proof.
  unfold digit_val.
  repeat match goal with
         | |- context [if ?b then _ else _] => destruct b eqn:?
         end; intros [= <-]; lia.
Qed.

Lemma scan_digits_nonneg base s : forall acc,
  0 <= base -> 0 <= acc -> 0 <= fst (scan_digits base s acc).
Proof.
  induction s as [|c s IH]; intros acc Hb Ha; simpl; [lia|].
  destruct (digit_val c) as [d|] eqn:Hd; simpl; [|lia].
  destruct (d <? base); simpl; [|lia].
  pose proof (digit_val_nonneg _ _ Hd).
  specialize (IH (acc * base + d) Hb ltac:(nia)).
  destruct (scan_digits base s (acc * base + d)); simpl in *; lia.
Qed.

Lemma base_of_nonneg s : 0 <= fst (base_of s).
Proof.
  unfold base_of.
  repeat match goal with
         | |- context [match ?x with _ => _ end] => destruct x
         end; simpl; lia.
Qed.

Lemma strtou_range umax s : 0 <= umax -> 0 <= fst (strtou umax s) <= umax.
Proof.
  intros Hu. unfold strtou.
  destruct (sign_of _) as [neg j].
  pose proof (base_of_nonneg (str_drop j (str_drop (count_space s) s))) as Hb.
  destruct (base_of _) as [base k]; simpl in Hb.
  pose proof (scan_digits_nonneg base
    (str_drop k (str_drop j (str_drop (count_space s) s))) 0 Hb ltac:(lia))
    as Hv.
  destruct (scan_digits _ _ _) as [v n]; simpl in Hv.
  destruct n; [destruct k; simpl; lia|].
  simpl. destruct (Z.ltb_spec umax v); [lia|].
  destruct neg; [|lia].
  pose proof (Z.mod_pos_bound (- v) (umax + 1) ltac:(lia)). lia.
Qed.

Lemma strtoull_range s : 0 <= fst (strtoull s) <= ULLONG_MAX.
Proof. apply strtou_range. unfold ULLONG_MAX. lia. Qed.

(** The multiplier is one of four values, or [-1]. *)
Lemma multiplier_cases str :
  let m := ubiutils_get_multiplier str in
  (str = "" /\ m = 1) \/ (str = "KiB" /\ m = 1024)
  \/ (str = "MiB" /\ m = 1024 * 1024)
  \/ (str = "GiB" /\ m = 1024 * 1024 * 1024)
  \/ (str <> "" /\ m = -1).
Proof.
  unfold ubiutils_get_multiplier, streq.
  destruct (String.eqb_spec str "") as [->|He]; [tauto|].
  destruct (String.eqb_spec str "KiB") as [->|_]; [tauto|].
  destruct (String.eqb_spec str "MiB") as [->|_]; [tauto|].
  destruct (String.eqb_spec str "GiB") as [->|_]; tauto.
Qed.

Lemma set_bytes_twice a x y : set_bytes (set_bytes a x) y = set_bytes a y.
Proof. reflexivity. Qed.

Lemma bytes_set_bytes a x : bytes (set_bytes a x) = x.
Proof. reflexivity. Qed.

(** ** The size option *)

(** A size whose value and whose product with the unit both fit a
    [long long] is stored as that product. *)
Lemma case_s_in_range a optarg n e :
  strtoull optarg = (n, e) ->
  e <> O ->
  ubiutils_get_multiplier (str_drop e optarg) <> -1 ->
  n <= LLONG_MAX ->
  n * ubiutils_get_multiplier (str_drop e optarg) <= LLONG_MAX ->
  case_s a optarg =
  ret (Break, set_bytes a (n * ubiutils_get_multiplier (str_drop e optarg))).
Proof.
  intros Hs He Hm Hn Hp.
  pose proof (strtoull_range optarg) as Hr. rewrite Hs in Hr; simpl in Hr.
  unfold case_s. rewrite Hs, bytes_set_bytes.
  rewrite (to_llong_small n) by lia.
  destruct (Nat.eqb_spec e 0) as [|_]; [contradiction|].
  destruct (Z.ltb_spec n 0); [lia|]. simpl orb. cbv iota.
  remember (str_drop e optarg) as suffix eqn:Hsuf. clear Hsuf.
  destruct (multiplier_cases suffix) as
    [[-> Hv]|[[-> Hv]|[[-> Hv]|[[-> Hv]|[_ Hv]]]]];
    try contradiction; clear Hv Hm.
  - change (ubiutils_get_multiplier "") with 1. now rewrite Z.mul_1_r.
  - change (ubiutils_get_multiplier "KiB") with 1024 in *.
    change (to_int 1024) with 1024.
    cbn [Z.eqb Pos.eqb Z.opp]. rewrite set_bytes_twice, to_llong_small by lia.
    reflexivity.
  - change (ubiutils_get_multiplier "MiB") with 1048576 in *.
    change (to_int 1048576) with 1048576.
    cbn [Z.eqb Pos.eqb Z.opp]. rewrite set_bytes_twice, to_llong_small by lia.
    reflexivity.
  - change (ubiutils_get_multiplier "GiB") with 1073741824 in *.
    change (to_int 1073741824) with 1073741824.
    cbn [Z.eqb Pos.eqb Z.opp]. rewrite set_bytes_twice, to_llong_small by lia.
    reflexivity.
Qed.

(** A size that [strtoull] does not convert, or converts to a value with
    the sign bit of [long long] set, is refused. *)
Lemma case_s_bad_size a optarg :
  snd (strtoull optarg) = O \/ to_llong (fst (strtoull optarg)) < 0 ->
  case_s a optarg =
  (errmsg (Bad_volume_size optarg) ;;
   ret (Returns (-1), set_bytes a (to_llong (fst (strtoull optarg))))).
Proof.
  intros H. unfold case_s. destruct (strtoull optarg) as [v e]; simpl in *.
  destruct (Nat.eqb_spec e 0); [reflexivity|].
  destruct (Z.ltb_spec (to_llong v) 0); [reflexivity|].
  destruct H; [contradiction|lia].
Qed.

(** A suffix that is not a unit is refused, whatever precedes it. *)
Lemma case_s_bad_suffix a optarg :
  ubiutils_get_multiplier (str_drop (snd (strtoull optarg)) optarg) = -1 ->
  exists d a',
    case_s a optarg = (errmsg d ;; ret (Returns (-1), a'))
    /\ kind_of d = Some InvalidSize.
Proof.
  intros Hm. unfold case_s. destruct (strtoull optarg) as [v e]; simpl in *.
  destruct ((e =? 0)%nat || (to_llong v <? 0)).
  - eexists _, _; split; reflexivity.
  - destruct (str_drop e optarg) as [|c rest] eqn:Hrest.
    + discriminate Hm.
    + rewrite Hm. change (to_int (-1) =? -1) with true. cbv iota.
      eexists _, _; split; reflexivity.
Qed.

(** ** Programs *)


Lemma ending_of_bind {A B} (m : prog A) (f : A -> prog B) :
  ending_of (bind m f) =
  match ending_of m with
  | Return a => ending_of (f a)
  | Exit s => Exit s
  | Trap => Trap
  end.
Proof.
  destruct m as [t [a|s|]]; simpl; try reflexivity. now destruct (f a).
Qed.

Lemma bind_returns {A B} (m : prog A) (f : A -> prog B) t a :
  m = (t, Return a) ->
  bind m f = ((t ++ trace_of (f a))%list, ending_of (f a)).
Proof. intros ->. simpl. now destruct (f a). Qed.

Lemma bind_exits {A B} (m : prog A) (f : A -> prog B) t s :
  m = (t, Exit s) -> bind m f = (t, Exit s).
Proof. now intros ->. Qed.

Lemma reported_app t1 t2 :
  reported (t1 ++ t2) = (reported t1 ++ reported t2)%list.
Proof.
  induction t1 as [|e t1 IH]; [reflexivity|].
  destruct e; simpl; now rewrite ?IH.
Qed.

(** ** The validator *)

(** What [param_sanity_check] does, check by check. *)
Lemma param_sanity_check_cases a lib :
  param_sanity_check a lib =
  if no_size_path a then ([Errmsg Volume_size_not_specified], Return (-1))
  else if no_name a then ([Errmsg Volume_name_not_specified], Return (-1))
  else if query_failed lib then
    ([Call_ubi_get_info; Errmsg Cannot_get_UBI_information;
      Perror "ubi_get_info"], Return (-1))
  else if device_out_of_count a lib then
    ([Call_ubi_get_info; Errmsg (UBI_device_does_not_exist a.(devn))],
     Return (-1))
  else if name_too_long UBI_MAX_VOLUME_NAME a then
    ([Call_ubi_get_info;
      Errmsg (Too_long_name
                (to_int (strlen (match a.(name) with
                                 | Some nm => nm
                                 | None => ""
                                 end))))],
     Return (-1))
  else ([Call_ubi_get_info], Return 0).
Proof.
  unfold param_sanity_check, no_size_path, no_name, query_failed,
    device_out_of_count, name_too_long, ubi_get_info.
  destruct ((bytes a =? 0) && (maxavs a =? 0)); [reflexivity|].
  destruct (name a) as [nm|]; [|reflexivity].
  destruct (on_get_info lib) as [err ubi]; simpl.
  destruct (err =? 0); simpl; [|reflexivity].
  destruct (devn a >=? to_int (dev_count ubi)); [reflexivity|].
  destruct (to_int (strlen nm) >? UBI_MAX_VOLUME_NAME); reflexivity.
Qed.

(** Claim C4: the validator runs its checks in the fixed order size path,
    name, device-info query, device index, name length; whatever the
    configuration and the device manager, it returns 0 when no check is
    violated, and otherwise returns -1 and reports exactly one failure, the
    first check violated in that order. *)
Theorem sanity_check_reports_first_violation a lib :
  let p := param_sanity_check a lib in
  let v := first_violated (checks_in_order UBI_MAX_VOLUME_NAME a lib) in
  ending_of p = Return (match v with None => 0 | Some _ => -1 end)
  /\ reported (trace_of p) = match v with None => [] | Some k => [Some k] end.
Proof.
  cbv zeta. rewrite param_sanity_check_cases.
  unfold checks_in_order, first_violated.
  destruct (no_size_path a); [split; reflexivity|].
  destruct (no_name a); [split; reflexivity|].
  destruct (query_failed lib); [split; reflexivity|].
  destruct (device_out_of_count a lib); [split; reflexivity|].
  destruct (name_too_long UBI_MAX_VOLUME_NAME a); split; reflexivity.
Qed.

(** The device manager is asked only once the two checks that need no
    device have passed. *)
Lemma sanity_check_query_after_local_checks a lib :
  In Call_ubi_get_info (trace_of (param_sanity_check a lib)) <->
  no_size_path a = false /\ no_name a = false.
Proof.
  rewrite param_sanity_check_cases.
  destruct (no_size_path a), (no_name a), (query_failed lib),
    (device_out_of_count a lib), (name_too_long UBI_MAX_VOLUME_NAME a);
    simpl; intuition discriminate.
Qed.

(** ** The option scan *)

Ltac key_cases r :=
  unfold parse_key;
  destruct (Ascii.eqb_spec (key r) "t");
  [|destruct (Ascii.eqb_spec (key r) "s");
  [|destruct (Ascii.eqb_spec (key r) "a");
  [|destruct (Ascii.eqb_spec (key r) "d");
  [|destruct (Ascii.eqb_spec (key r) "n");
  [|destruct (Ascii.eqb_spec (key r) "N");
  [|destruct (Ascii.eqb_spec (key r) "h");
  [|destruct (Ascii.eqb_spec (key r) ":");
  [|destruct (Ascii.eqb_spec (key r) "V");
  [|destruct (Ascii.eqb_spec (key r) "m")]]]]]]]]].

Ltac case_bodies :=
  unfold case_t, case_s, case_a, case_d, case_n, case_N;
  repeat match goal with
         | |- context [strtoull ?s] => destruct (strtoull s)
         | |- context [strtoul ?s] => destruct (strtoul s)
         | |- context [if ?c then _ else _] => destruct c
         | |- context [match str_drop ?n ?s with _ => _ end] =>
             destruct (str_drop n s)
         end.

Lemma parse_key_outcome a r : key_outcome a r (parse_key a r).
Proof.
  key_cases r; case_bodies; simpl;
    try (now apply Key_error); try (now apply Key_help);
    try (now apply Key_version); try (apply Key_unknown);
    try (apply Key_break; simpl; auto; congruence).
Qed.

Lemma parse_keys_cons r rs a :
  parse_keys (r :: rs) a =
  ('(c, a') <- parse_key a r ;;
   match c with
   | Break => parse_keys rs a'
   | Returns err => ret (err, a')
   end).
Proof. reflexivity. Qed.

Lemma Forall_warn_parse w :
  Forall (fun e => e = Warnmsg_devn_depricated) w ->
  Forall (fun e => is_parse_event e = true) w.
Proof. intros H. eapply Forall_impl; [|exact H]. now intros e ->. Qed.

(** The scan writes messages only. *)
Lemma parse_keys_trace rs : forall a,
  Forall (fun e => is_parse_event e = true) (trace_of (parse_keys rs a)).
Proof.
  induction rs as [|r rs IH]; intros a; [constructor|].
  rewrite parse_keys_cons.
  destruct (parse_key_outcome a r) as [a' w Hw _ _ _ _|d a' Hd| | |]; simpl;
    try (repeat constructor); try assumption.
  specialize (IH a'). destruct (parse_keys rs a') as [t e]; simpl in *.
  apply Forall_app; split; [now apply Forall_warn_parse|exact IH].
Qed.

(** Nothing in the scan can trap. *)
Lemma parse_keys_no_trap rs : forall a, ending_of (parse_keys rs a) <> Trap.
Proof.
  induction rs as [|r rs IH]; intros a; [discriminate|].
  rewrite parse_keys_cons, ending_of_bind.
  destruct (parse_key_outcome a r) as [a1 w _ _ _ _ _|d a1 _| | |];
    simpl; try discriminate.
  apply IH.
Qed.

(** A scan that returns, returns 0 or -1. *)
Lemma parse_keys_err rs : forall a t err a',
  parse_keys rs a = (t, Return (err, a')) -> err = 0 \/ err = -1.
Proof.
  induction rs as [|r rs IH]; intros a t err a' H.
  - injection H as <- <- <-. now left.
  - rewrite parse_keys_cons in H.
    destruct (parse_key_outcome a r) as [a1 w _ _ _ _ _|d a1 _| | |];
      simpl in H; try discriminate.
    + destruct (parse_keys rs a1) as [t1 e1] eqn:E.
      injection H as <- ->. eauto.
    + injection H as <- <- <-. now right.
Qed.

(** What a scan that returns 0 leaves in the configuration. *)
Lemma parse_keys_accepted rs : forall a t a',
  parse_keys rs a = (t, Return (0, a')) ->
  (has_keyb "s" rs = false -> bytes a' = bytes a)
  /\ (has_keyb "d" rs = false -> devn a' = devn a)
  /\ (has_keyb "m" rs = false -> maxavs a' = maxavs a)
  /\ (has_keyb "m" rs = true \/ maxavs a = 1 -> maxavs a' = 1).
Proof.
  induction rs as [|r rs IH]; intros a t a' H.
  - injection H as <- <-. simpl. intuition discriminate.
  - rewrite parse_keys_cons in H. unfold has_keyb in *. simpl existsb.
    destruct (parse_key_outcome a r) as [a1 w Hw Hs Hd Hm Hm1|d a1 _| | |];
      simpl in H; try discriminate.
    destruct (parse_keys rs a1) as [t1 e1] eqn:E.
    injection H as <- ->.
    destruct (IH _ _ _ E) as (Is & Id & Im & Im1).
    repeat split; rewrite ?orb_false_iff, ?orb_true_iff.
    + intros [K1 K2]. rewrite Is, Hs; auto.
      intros K. rewrite K in K1. discriminate.
    + intros [K1 K2]. rewrite Id, Hd; auto.
      intros K. rewrite K in K1. discriminate.
    + intros [K1 K2]. rewrite Im, Hm; auto.
      intros K. rewrite K in K1. discriminate.
    + intros K. apply Im1.
      destruct (Ascii.eqb_spec (key r) "m") as [Km|Km].
      * right. auto.
      * destruct K as [[K|K]|K]; [discriminate|now left|].
        right. rewrite Hm; auto.
Qed.

(** A scan that returns 0 has accepted every option, so that it can be
    continued. *)
Lemma parse_keys_app pre : forall l a t a',
  parse_keys pre a = (t, Return (0, a')) ->
  parse_keys (pre ++ l) a =
  ((t ++ trace_of (parse_keys l a'))%list, ending_of (parse_keys l a')).
Proof.
  induction pre as [|r pre IH]; intros l a t a' H.
  - injection H as <- <-. simpl. now destruct (parse_keys l a).
  - rewrite <- app_comm_cons, parse_keys_cons. rewrite parse_keys_cons in H.
    destruct (parse_key_outcome a r) as [a1 w Hw _ _ _ _|d a1 _| | |];
      simpl in H; try discriminate.
    destruct (parse_keys pre a1) as [t1 e1] eqn:E.
    injection H as <- ->.
    simpl. rewrite (IH l _ _ _ E). now rewrite app_assoc.
Qed.

(** ** From the opening of libubi on *)

Ltac run_step :=
  match goal with
  | |- context [on_open ?l] => destruct (on_open l) eqn:?
  | |- context [match on_get_dev_info ?l ?n with _ => _ end] =>
      destruct (on_get_dev_info l n) as [? ?] eqn:?
  | |- context [match on_mkvol ?l ?n ?r with _ => _ end] =>
      destruct (on_mkvol l n r) as [? ?] eqn:?
  | |- context [match on_get_vol_info1 ?l ?n ?r with _ => _ end] =>
      destruct (on_get_vol_info1 l n r) as [? ?] eqn:?
  | |- context [if negb ?c then _ else _] => destruct c eqn:?
  | |- context [if ?c then _ else _] => destruct c eqn:?
  end;
  cbn -[Z.quot report_unit unit_divisor LLONG_MIN].

Ltac run_create :=
  unfold create, libubi_open, out_libubi, libubi_close, ubi_get_dev_info,
    ubi_mkvol, ubi_get_vol_info1, report, lldiv;
  rewrite param_sanity_check_cases;
  cbn -[Z.quot report_unit unit_divisor LLONG_MIN];
  repeat run_step.

(** Once libubi is open, a run that is not cut short by a trap closes it,
    once, as the last thing it does. *)
Lemma create_closes a lib :
  on_open lib = true ->
  ending_of (create a lib) <> Trap ->
  exists t,
    trace_of (create a lib) =
    (Call_libubi_open true :: t ++ [Call_libubi_close])%list
    /\ filter is_close t = [].
Proof.
  intros Ho Hend. revert Hend.
  run_create; try congruence; intros _;
    match goal with
    | |- exists t, ?l = _ /\ _ => exists (removelast (tl l))
    end; split; reflexivity.
Qed.

(** When libubi does not open, nothing else of it is called. *)
Lemma create_not_opened a lib :
  on_open lib = false ->
  create a lib =
  ([Call_libubi_open false; Errmsg Cannot_open_libubi; Perror "libubi_open"],
   Return (-1)).
Proof. intros Ho. unfold create, libubi_open. now rewrite Ho. Qed.

(** The request that is issued, and what precedes it. *)
Lemma create_mkvol a lib nd req :
  In (Call_ubi_mkvol nd req) (trace_of (create a lib)) ->
  let dev_info := snd (on_get_dev_info lib (node a)) in
  let size := if maxavs a =? 0 then bytes a else avail_bytes dev_info in
  nd = node a
  /\ req = {| req_vol_id := Init (vol_id a);
              req_alignment := Init (alignment a);
              req_bytes := Init size;
              req_vol_type := Init (vol_type a);
              req_name := Init (name a) |}
  /\ exists t2,
       trace_of (create a lib) =
       ([Call_libubi_open true; Call_ubi_get_info;
         Call_ubi_get_dev_info (node a)]
        ++ (if maxavs a =? 0 then [] else [Printf_set_volume_size Uninit])
        ++ Call_ubi_mkvol nd req :: t2)%list.
Proof.
  cbv zeta. run_create; intros H; simpl in H;
    repeat match goal with
           | H : _ \/ _ |- _ => destruct H as [H|H]
           | H : False |- _ => destruct H
           | H : Call_ubi_mkvol _ _ = Call_ubi_mkvol _ _ |- _ =>
               injection H as <- <-
           | H : _ = Call_ubi_mkvol _ _ |- _ => discriminate H
           end;
    (split; [reflexivity|split; [reflexivity|eexists; reflexivity]]).
Qed.

(** ** The whole run *)

Lemma main_accepted argv lib :
  argv_accepted argv = true ->
  main argv lib =
  ('(err, a) <- parse_keys (getopt_long (tl argv)) (start argv) ;;
   if negb (err =? 0) then ret err else create a lib).
Proof.
  unfold argv_accepted, main, parse_opt, start.
  intros [H3 Hn]%andb_true_iff.
  apply Z.leb_le in H3, Hn.
  destruct (Z.ltb_spec (Z.of_nat (List.length argv)) 2); [lia|].
  destruct (Z.ltb_spec (Z.of_nat (List.length argv)) 3); [lia|].
  destruct (Z.gtb_spec (strlen (nth 1 argv "")) MAX_NODE_LEN); [lia|].
  reflexivity.
Qed.

Lemma main_refused argv lib :
  argv_accepted argv = false ->
  exists d,
    main argv lib = ([Errmsg d], Return (-1))
    /\ kind_of d = None /\ is_argument_diag d = true.
Proof.
  unfold argv_accepted, main. intros H.
  destruct (Z.ltb_spec (Z.of_nat (List.length argv)) 2);
    [eexists; repeat split; reflexivity|].
  destruct (Z.ltb_spec (Z.of_nat (List.length argv)) 3);
    [eexists; repeat split; reflexivity|].
  destruct (Z.gtb_spec (strlen (nth 1 argv "")) MAX_NODE_LEN);
    [eexists; repeat split; reflexivity|].
  apply andb_false_iff in H. destruct H as [H|H]; apply Z.leb_gt in H; lia.
Qed.

(** Either the run ends within the option scan, having written messages
    only, or the scan accepts every option and the rest of the run is
    [create] on the configuration it leaves. *)
Lemma main_shape argv lib :
  (Forall (fun e => is_parse_event e = true) (trace_of (main argv lib))
   /\ ending_of (main argv lib) <> Trap
   /\ ending_of (main argv lib) <> Return 0)
  \/ (argv_accepted argv = true /\
      exists t a,
        parse_keys (getopt_long (tl argv)) (start argv) = (t, Return (0, a))
        /\ main argv lib =
           ((t ++ trace_of (create a lib))%list, ending_of (create a lib))).
Proof.
  destruct (argv_accepted argv) eqn:Hacc.
  - rewrite (main_accepted _ _ Hacc).
    pose proof (parse_keys_trace (getopt_long (tl argv)) (start argv)) as Ht.
    destruct (parse_keys _ _) as [t [[err a]|s|]] eqn:Hp.
    + destruct (parse_keys_err _ _ _ _ _ Hp) as [->| ->].
      * right. split; [reflexivity|]. exists t, a. split; [reflexivity|].
        simpl. now destruct (create a lib).
      * left. simpl. rewrite app_nil_r.
        repeat split; [exact Ht|..]; discriminate.
    + left. simpl.
      repeat split; [exact Ht|..]; discriminate.
    + exfalso. apply (parse_keys_no_trap (getopt_long (tl argv)) (start argv)).
      now rewrite Hp.
  - left. destruct (main_refused _ lib Hacc) as (d & -> & _ & Hd). simpl.
    repeat split; [|discriminate..]. repeat constructor. exact Hd.
Qed.

Lemma parse_events_only t e :
  Forall (fun e => is_parse_event e = true) t -> In e t ->
  is_parse_event e = true.
Proof. intros H Hin. rewrite Forall_forall in H. now apply H. Qed.

Lemma parse_events_no_close t :
  Forall (fun e => is_parse_event e = true) t -> filter is_close t = [].
Proof.
  induction 1 as [|e t He _ IH]; [reflexivity|].
  simpl. rewrite IH. now destruct e.
Qed.

Lemma parse_events_no_call t :
  Forall (fun e => is_parse_event e = true) t ->
  Forall (fun e => is_libubi_call e = false) t.
Proof.
  intros H. eapply Forall_impl; [|exact H]. intros e He. now destruct e.
Qed.

(** An event that the option scan cannot write is written by [create]. *)
Lemma main_event argv lib e :
  is_parse_event e = false ->
  In e (trace_of (main argv lib)) ->
  exists t a,
    parse_keys (getopt_long (tl argv)) (start argv) = (t, Return (0, a))
    /\ Forall (fun e => is_parse_event e = true) t
    /\ main argv lib =
       ((t ++ trace_of (create a lib))%list, ending_of (create a lib))
    /\ In e (trace_of (create a lib)).
Proof.
  intros He Hin.
  destruct (main_shape argv lib) as [(Ht & _)|(_ & t & a & Hp & Hm)].
  - rewrite (parse_events_only _ _ Ht Hin) in He. discriminate.
  - pose proof (parse_keys_trace (getopt_long (tl argv)) (start argv)) as Ht.
    rewrite Hp in Ht. simpl in Ht.
    exists t, a. repeat split; try assumption.
    rewrite Hm in Hin. simpl in Hin. apply in_app_or in Hin.
    destruct Hin as [Hin|Hin]; [|exact Hin].
    rewrite (parse_events_only _ _ Ht Hin) in He. discriminate.
Qed.

(** Claim C8, as the program has it: on every run on which libubi is
    opened and which ends with [main] returning (success or any failure of
    validation, of a device query, of the creation or of the query that
    follows it), the handle is closed exactly once, and the closing is the
    last thing the run does. *)
Theorem handle_closed_exactly_once argv lib :
  In (Call_libubi_open true) (trace_of (main argv lib)) ->
  ending_of (main argv lib) <> Trap ->
  exists t,
    trace_of (main argv lib) = (t ++ [Call_libubi_close])%list
    /\ filter is_close t = []
    /\ In (Call_libubi_open true) t.
Proof.
  intros Hin Hend.
  destruct (main_event argv lib (Call_libubi_open true) eq_refl Hin)
    as (t & a & _ & Ht & Hm & Hc).
  rewrite Hm in *. simpl in Hend |- *.
  assert (on_open lib = true) as Ho.
  { destruct (on_open lib) eqn:Ho; [reflexivity|].
    rewrite (create_not_opened _ _ Ho) in Hc. simpl in Hc.
    intuition discriminate. }
  destruct (create_closes a lib Ho Hend) as (tc & -> & Hno).
  exists (t ++ Call_libubi_open true :: tc)%list. repeat split.
  - now rewrite <- app_assoc.
  - rewrite filter_app. simpl. now rewrite Hno, parse_events_no_close.
  - apply in_or_app. right. now left.
Qed.

(** A configuration that the scan leaves with [maxavs] set asks for the
    bytes the device has available. *)
Lemma create_mkvol_maxavs a lib nd req :
  maxavs a = 1 ->
  In (Call_ubi_mkvol nd req) (trace_of (create a lib)) ->
  req_bytes req = Init (avail_bytes (snd (on_get_dev_info lib nd)))
  /\ exists t2,
       trace_of (create a lib) =
       ([Call_libubi_open true; Call_ubi_get_info; Call_ubi_get_dev_info nd;
         Printf_set_volume_size Uninit; Call_ubi_mkvol nd req] ++ t2)%list.
Proof.
  intros Hm Hin.
  destruct (create_mkvol a lib nd req Hin) as (-> & -> & t2 & Ht).
  rewrite Hm in *. simpl in *. split; [reflexivity|].
  exists t2. exact Ht.
Qed.

(** Claim C5: when the maxavsize flag is among the options, the request
    that is issued carries as its size the available byte count that
    [ubi_get_dev_info] reports for the node, whatever size was given; that
    query comes after the validator's query and right before the request,
    with only the message about the size in between. *)
Theorem maxavsize_sets_request_size argv lib nd req :
  has_keyb "m" (getopt_long (tl argv)) = true ->
  In (Call_ubi_mkvol nd req) (trace_of (main argv lib)) ->
  req_bytes req = Init (avail_bytes (snd (on_get_dev_info lib nd)))
  /\ exists t1 t2 v,
       trace_of (main argv lib) =
       (t1 ++ [Call_ubi_get_info; Call_ubi_get_dev_info nd;
               Printf_set_volume_size v; Call_ubi_mkvol nd req] ++ t2)%list.
Proof.
  intros Hkey Hin.
  destruct (main_event argv lib (Call_ubi_mkvol nd req) eq_refl Hin)
    as (t & a & Hp & _ & Hm & Hc).
  destruct (parse_keys_accepted _ _ _ _ Hp) as (_ & _ & _ & Hmax).
  destruct (create_mkvol_maxavs a lib nd req (Hmax (or_introl Hkey)) Hc)
    as (Hb & t2 & Ht).
  split; [exact Hb|].
  exists (t ++ [Call_libubi_open true])%list, t2, Uninit.
  rewrite Hm. simpl. rewrite Ht. now rewrite <- app_assoc.
Qed.

(** ** The report *)

Ltac find_event :=
  repeat match goal with
         | H : In _ (_ :: _) |- _ => destruct H as [H|H]
         | H : In _ [] |- _ => destruct H
         | H : _ \/ _ |- _ => destruct H as [H|H]
         | H : False |- _ => destruct H
         | H : ?x = ?x |- _ => clear H
         | H : _ = _ :> event |- _ => first [discriminate H | injection H as H]
         end.

(** The unit is chosen by strict comparison with 1 GiB and 1 MiB. *)
Lemma report_unit_rule b :
  (1024 * 1024 * 1024 < b -> report_unit b = GiB)
  /\ (1024 * 1024 < b <= 1024 * 1024 * 1024 -> report_unit b = MiB)
  /\ (b <= 1024 * 1024 -> report_unit b = KiB).
Proof.
  unfold report_unit.
  destruct (Z.gtb_spec b (1024 * 1024 * 1024));
    destruct (Z.gtb_spec b (1024 * 1024)); repeat split; intros; try lia;
    reflexivity.
Qed.

Lemma create_reports a lib :
  ending_of (create a lib) = Return 0 ->
  exists dn id,
    let vol_info := snd (on_get_vol_info1 lib dn id) in
    let b := rsvd_bytes vol_info in
    In (Call_ubi_get_vol_info1 dn id) (trace_of (create a lib))
    /\ In (Printf_size (report_unit b) b (unit_divisor (report_unit b)))
         (trace_of (create a lib)).
Proof.
  cbv zeta. run_create; intros H; try discriminate H;
    match goal with
    | E : on_get_vol_info1 lib ?dn ?id = _ |- _ =>
        exists dn, id; rewrite E; simpl; intuition
    end.
Qed.

Lemma create_printf_size a lib u b d :
  In (Printf_size u b d) (trace_of (create a lib)) ->
  u = report_unit b /\ d = unit_divisor u.
Proof.
  run_create; intros H; find_event; subst; split; reflexivity.
Qed.

Lemma create_renders a lib dn id :
  In (Call_ubi_get_vol_info1 dn id) (trace_of (create a lib)) ->
  fst (on_get_vol_info1 lib dn id) = 0 ->
  eb_size (snd (on_get_vol_info1 lib dn id)) <> 0 ->
  ~ (rsvd_bytes (snd (on_get_vol_info1 lib dn id)) = LLONG_MIN
     /\ eb_size (snd (on_get_vol_info1 lib dn id)) = -1) ->
  let b := rsvd_bytes (snd (on_get_vol_info1 lib dn id)) in
  In (Printf_size (report_unit b) b (unit_divisor (report_unit b)))
    (trace_of (create a lib)).
Proof.
  cbv zeta. run_create; intros H H0 Heb Hmin; find_event; subst;
    match goal with
    | E : on_get_vol_info1 _ _ _ = _ |- _ => rewrite E in *; simpl in *
    end;
    repeat match goal with
           | H : (_ =? _) = true |- _ => apply Z.eqb_eq in H
           | H : (_ =? _) = false |- _ => apply Z.eqb_neq in H
           | H : _ && _ = true |- _ => apply andb_true_iff in H; destruct H
           end;
    try contradiction; try tauto.
Qed.

(** Rounding goes to a nearest integer. *)
Lemma round_half_even_nearest n d :
  0 < d -> 2 * Z.abs (n - round_half_even n d * d) <= d.
Proof.
  intros Hd. unfold round_half_even.
  pose proof (Z.div_mod n d ltac:(lia)) as Hn.
  pose proof (Z.mod_pos_bound n d Hd) as Hr.
  destruct (Z.ltb_spec (2 * (n mod d)) d); [nia|].
  destruct (Z.ltb_spec d (2 * (n mod d))); [nia|].
  destruct (Z.even (n / d)); nia.
Qed.

(** The text has one digit behind the point. *)
Lemma size_text_one_decimal u b d :
  exists ip f,
    0 <= ip /\ 0 <= f <= 9
    /\ 10 * ip + f = Z.abs (size_tenths b d)
    /\ size_text u b d =
       (sign_text b ++ decimal ip ++ "." ++ decimal f
        ++ " " ++ unit_name u ++ ")")%string.
Proof.
  exists (Z.abs (size_tenths b d) / 10), (Z.abs (size_tenths b d) mod 10).
  pose proof (Z.abs_nonneg (size_tenths b d)) as Ha.
  pose proof (Z.mod_pos_bound (Z.abs (size_tenths b d)) 10 ltac:(lia)).
  pose proof (Z.div_mod (Z.abs (size_tenths b d)) 10 ltac:(lia)).
  split; [apply Z.div_pos; lia|].
  split; [lia|]. split; [lia|reflexivity].
Qed.

Lemma unit_divisor_pos u : 0 < unit_divisor u.
Proof. destruct u; reflexivity. Qed.

(** The number written is the quotient to the nearest tenth. *)
Lemma size_tenths_nearest b d :
  0 < d -> Z.abs b < 2 ^ 53 ->
  2 * Z.abs (10 * b - size_tenths b d * d) <= d.
Proof.
  intros Hd Hb. unfold size_tenths, to_double.
  destruct (Z.ltb_spec (Z.abs b) (2 ^ 53)); [|lia].
  now apply round_half_even_nearest.
Qed.

(** Claim C1, as the program has it: for every volume that has been created
    and queried again with success, and whose count of LEBs the report can
    form (a LEB size that is not 0), the reserved size is written in the
    unit chosen by strict comparison, GiB above 1 GiB, else MiB above
    1 MiB, else KiB, with one digit behind the point: the byte count over
    the size of the unit, rounded to the nearest tenth.  A size of exactly
    1 GiB is written as 1024.0 MiB and one of exactly 1 MiB as
    1024.0 KiB. *)
Theorem reported_size_unit argv lib dn id :
  In (Call_ubi_get_vol_info1 dn id) (trace_of (main argv lib)) ->
  fst (on_get_vol_info1 lib dn id) = 0 ->
  eb_size (snd (on_get_vol_info1 lib dn id)) <> 0 ->
  ~ (rsvd_bytes (snd (on_get_vol_info1 lib dn id)) = LLONG_MIN
     /\ eb_size (snd (on_get_vol_info1 lib dn id)) = -1) ->
  let b := rsvd_bytes (snd (on_get_vol_info1 lib dn id)) in
  let u := report_unit b in
  let d := unit_divisor u in
  In (Printf_size u b d) (trace_of (main argv lib))
  /\ (1024 * 1024 * 1024 < b -> u = GiB)
  /\ (1024 * 1024 < b <= 1024 * 1024 * 1024 -> u = MiB)
  /\ (b <= 1024 * 1024 -> u = KiB)
  /\ (exists ip f,
        0 <= ip /\ 0 <= f <= 9
        /\ 10 * ip + f = Z.abs (size_tenths b d)
        /\ size_text u b d =
           (sign_text b ++ decimal ip ++ "." ++ decimal f
            ++ " " ++ unit_name u ++ ")")%string)
  /\ (Z.abs b < 2 ^ 53 -> 2 * Z.abs (10 * b - size_tenths b d * d) <= d)
  /\ (b = 1024 * 1024 * 1024 -> size_text u b d = "1024.0 MiB)")
  /\ (b = 1024 * 1024 -> size_text u b d = "1024.0 KiB)").
Proof.
  intros Hin Hok Heb Hmin. cbv zeta.
  destruct (main_event argv lib (Call_ubi_get_vol_info1 dn id) eq_refl Hin)
    as (t & a & _ & _ & Hm & Hc).
  split.
  { rewrite Hm. simpl. apply in_or_app. right.
    exact (create_renders a lib dn id Hc Hok Heb Hmin). }
  destruct (report_unit_rule (rsvd_bytes (snd (on_get_vol_info1 lib dn id))))
    as (H1 & H2 & H3).
  repeat split; try assumption.
  - apply size_text_one_decimal.
  - intros Hb. apply size_tenths_nearest; [apply unit_divisor_pos|exact Hb].
  - intros ->. reflexivity.
  - intros ->. reflexivity.
Qed.

(** The message about the size, wherever it is printed, prints a field
    that has not been assigned yet. *)
Lemma set_volume_size_message argv lib v :
  In (Printf_set_volume_size v) (trace_of (main argv lib)) -> v = Uninit.
Proof.
  intros Hin.
  destruct (main_event argv lib (Printf_set_volume_size v) eq_refl Hin)
    as (t & a & _ & _ & _ & Hc).
  revert Hc. clear. run_create; intros H; find_event; now subst.
Qed.

(** ** The device number *)

Lemma to_int_small n : 0 <= n < 2 ^ 31 -> to_int n = n.
Proof.
  unfold to_int, wrap_signed, INT_BITS.
  change (2 ^ 32) with 4294967296. change (2 ^ (32 - 1)) with 2147483648.
  change (2 ^ 31) with 2147483648.
  intros H. rewrite Z.mod_small by lia.
  destruct (Z.ltb_spec n 2147483648); lia.
Qed.

Lemma default_devn_in_count a lib :
  devn a = -1 ->
  0 <= dev_count (snd (on_get_info lib)) < 2 ^ 31 ->
  device_out_of_count a lib = false.
Proof.
  intros Hd Hc. unfold device_out_of_count.
  rewrite Hd, to_int_small by exact Hc.
  destruct (Z.geb_spec (-1) (dev_count (snd (on_get_info lib)))); [lia|].
  reflexivity.
Qed.

Lemma create_device_count a lib n :
  In (Errmsg (UBI_device_does_not_exist n)) (trace_of (create a lib)) ->
  device_out_of_count a lib = true.
Proof.
  run_create; intros H; find_event; reflexivity.
Qed.

(** The validator does not look at the device node. *)
Lemma sanity_check_ignores_node a lib nd :
  param_sanity_check (set_node a nd) lib = param_sanity_check a lib.
Proof. reflexivity. Qed.

(** Claim C10: in a run without the devn option the device number keeps
    its default -1, which is below any device count the device manager can
    report, so the validator's device-count check does not fail and the
    message that the device does not exist is not written; and the
    validator's outcome does not depend on the device node at all. *)
Theorem device_count_check_needs_devn argv lib :
  has_keyb "d" (getopt_long (tl argv)) = false ->
  0 <= dev_count (snd (on_get_info lib)) < 2 ^ 31 ->
  (forall n,
      ~ In (Errmsg (UBI_device_does_not_exist n)) (trace_of (main argv lib)))
  /\ ~ In (Some DeviceNotFound) (reported (trace_of (main argv lib)))
  /\ (forall a nd,
        param_sanity_check (set_node a nd) lib = param_sanity_check a lib).
Proof.
  intros Hkey Hc.
  assert (forall n,
    ~ In (Errmsg (UBI_device_does_not_exist n)) (trace_of (main argv lib)))
    as Hnot.
  { intros n Hin.
    destruct (main_event argv lib (Errmsg (UBI_device_does_not_exist n))
                eq_refl Hin) as (t & a & Hp & _ & _ & Hcr).
    destruct (parse_keys_accepted _ _ _ _ Hp) as (_ & Hd & _).
    apply create_device_count in Hcr.
    rewrite default_devn_in_count in Hcr; [discriminate| |exact Hc].
    now rewrite (Hd Hkey). }
  split; [exact Hnot|split; [|intros; apply sanity_check_ignores_node]].
  intros Hin. revert Hnot.
  induction (trace_of (main argv lib)) as [|e t IH]; [destruct Hin|].
  intros Hnot.
  assert (forall n, ~ In (Errmsg (UBI_device_does_not_exist n)) t) as Hnot'
    by (intros n H; apply (Hnot n); now right).
  destruct e; simpl in Hin; try (now apply IH).
  destruct Hin as [Hk|Hin]; [|now apply IH].
  destruct d; try discriminate Hk. eapply Hnot. now left.
Qed.

(** ** Missing size *)

(** Without a size path the validator fails on its first check, whatever
    the other fields and the device manager. *)
Lemma sanity_check_missing_size a lib :
  no_size_path a = true ->
  param_sanity_check a lib = ([Errmsg Volume_size_not_specified], Return (-1)).
Proof. intros H. rewrite param_sanity_check_cases. now rewrite H. Qed.

Lemma create_missing_size a lib :
  on_open lib = true ->
  no_size_path a = true ->
  create a lib =
  ([Call_libubi_open true; Errmsg Volume_size_not_specified;
    Call_libubi_close], Return (-1)).
Proof.
  intros Ho Hs. unfold create, libubi_open.
  rewrite Ho, (sanity_check_missing_size _ _ Hs). reflexivity.
Qed.

(** Claim C3, as the program has it: when neither the size option nor the
    maxavsize flag is among the options, the argument vector passes the
    checks of [main], the scan accepts every option and libubi opens, the
    run fails with the message that the volume size was not specified,
    before any device query and whatever the other options and the state
    of the device. *)
Theorem missing_size_reported argv lib t a :
  argv_accepted argv = true ->
  has_keyb "s" (getopt_long (tl argv)) = false ->
  has_keyb "m" (getopt_long (tl argv)) = false ->
  parse_keys (getopt_long (tl argv)) (start argv) = (t, Return (0, a)) ->
  on_open lib = true ->
  main argv lib =
  ((t ++ [Call_libubi_open true; Errmsg Volume_size_not_specified;
          Call_libubi_close])%list, Return (-1))
  /\ kind_of Volume_size_not_specified = Some MissingSize.
Proof.
  intros Hacc Hs Hm Hp Ho. split; [|reflexivity].
  rewrite (main_accepted _ _ Hacc), Hp.
  destruct (parse_keys_accepted _ _ _ _ Hp) as (Hb & _ & Hx & _).
  assert (no_size_path a = true) as Hn.
  { unfold no_size_path. now rewrite (Hb Hs), (Hx Hm). }
  simpl. now rewrite (create_missing_size _ _ Ho Hn).
Qed.

(** ** Help and version *)

(** Claim C2, as the program has it: when the argument vector passes the
    checks of [main] and the scan reaches the help flag (the version flag)
    with every option before it accepted, the run writes the help text (the
    version) and exits with status 0; libubi has not been called, so that
    no validation and no device query has run. *)
Theorem help_version_short_circuit argv lib pre r rest t a :
  argv_accepted argv = true ->
  getopt_long (tl argv) = (pre ++ r :: rest)%list ->
  parse_keys pre (start argv) = (t, Return (0, a)) ->
  (key r = "h"%char -> main argv lib = ((t ++ [Help_text])%list, Exit 0))
  /\ (key r = "V"%char -> main argv lib = ((t ++ [Version_text])%list, Exit 0))
  /\ Forall (fun e => is_libubi_call e = false) t.
Proof.
  intros Hacc Hscan Hpre.
  rewrite (main_accepted _ _ Hacc), Hscan.
  rewrite (parse_keys_app pre (r :: rest) _ _ _ Hpre), parse_keys_cons.
  repeat split.
  - intros Hk. unfold parse_key. rewrite Hk. reflexivity.
  - intros Hk. unfold parse_key. rewrite Hk. reflexivity.
  - apply parse_events_no_call.
    pose proof (parse_keys_trace pre (start argv)) as H.
    now rewrite Hpre in H.
Qed.

(** ** Sizes *)

(** Claim C6, as the program has it: when the value [n] that [strtoull]
    reads off the size argument and its product with the multiplier of the
    suffix both fit a [long long], the stored size is exactly that product
    (no suffix 1, KiB 1024, MiB 1024 squared, GiB 1024 cubed) and nothing
    else of the configuration changes; and a suffix that is none of these
    makes the option fail with a message of kind InvalidSize. *)
Theorem size_is_value_times_unit a optarg n e :
  strtoull optarg = (n, e) ->
  let mult := ubiutils_get_multiplier (str_drop e optarg) in
  (e <> O -> mult <> -1 -> n <= LLONG_MAX -> n * mult <= LLONG_MAX ->
   case_s a optarg = ret (Break, set_bytes a (n * mult))
   /\ bytes (set_bytes a (n * mult)) = n * mult)
  /\ (mult = -1 ->
      exists d a',
        case_s a optarg = (errmsg d ;; ret (Returns (-1), a'))
        /\ kind_of d = Some InvalidSize).
Proof.
  intros Hs. cbv zeta. split.
  - intros He Hm Hn Hp. split; [|reflexivity].
    now apply (case_s_in_range a optarg n e).
  - intros Hm. apply case_s_bad_suffix. now rewrite Hs.
Qed.

(** ** Negative sizes *)

(** A size that reads as a negative [long long] is refused when the scan
    reaches it, before libubi is opened. *)
Lemma negative_size_refused argv lib pre r rest t a :
  argv_accepted argv = true ->
  getopt_long (tl argv) = (pre ++ r :: rest)%list ->
  parse_keys pre (start argv) = (t, Return (0, a)) ->
  key r = "s"%char ->
  to_llong (fst (strtoull (optarg r))) < 0 ->
  main argv lib =
  ((t ++ [Errmsg (Bad_volume_size (optarg r))])%list, Return (-1))
  /\ Forall (fun e => is_libubi_call e = false) t
  /\ kind_of (Bad_volume_size (optarg r)) = Some InvalidSize.
Proof.
  intros Hacc Hscan Hpre Hk Hneg.
  rewrite (main_accepted _ _ Hacc), Hscan.
  rewrite (parse_keys_app pre (r :: rest) _ _ _ Hpre), parse_keys_cons.
  repeat split.
  - unfold parse_key. rewrite Hk. cbn [Ascii.eqb Bool.eqb].
    rewrite case_s_bad_size by now right. simpl. now rewrite app_nil_r.
  - apply parse_events_no_call.
    pose proof (parse_keys_trace pre (start argv)) as H.
    now rewrite Hpre in H.
Qed.

(** The values for which the sign test of the size option works: a minus
    sign in front of a magnitude of at most 2^63. *)
Lemma negated_magnitude_is_negative m :
  0 < m <= 2 ^ 63 -> to_llong ((- m) mod (ULLONG_MAX + 1)) < 0.
Proof.
  intros H. apply to_llong_big. unfold LLONG_MAX, ULLONG_MAX in *.
  change (2 ^ 64 - 1 + 1) with (2 ^ 64).
  change (2 ^ 64) with 18446744073709551616 in *.
  change (2 ^ 63) with 9223372036854775808 in *.
  replace (- m) with (18446744073709551616 - m + (-1) * 18446744073709551616)
    by lia.
  rewrite Z_mod_plus_full, Z.mod_small by lia. lia.
Qed.

(** * Further properties *)

(** ** What the options leave untouched, and what they keep true *)

Ltac key_bodies :=
  unfold case_t, case_s, case_a, case_d, case_n, case_N;
  repeat match goal with
         | |- context [strtoull ?s] => destruct (strtoull s) as [? ?]
         | |- context [strtoul ?s] => destruct (strtoul s) as [? ?]
         | |- context [if ?c then _ else _] => destruct c eqn:?
         | |- context [match str_drop ?n ?s with _ => _ end] =>
             destruct (str_drop n s) eqn:?
         end.

(** An option changes the fields that belong to it only. *)
Lemma parse_key_untouched a r w a' :
  parse_key a r = (w, Return (Break, a')) ->
  (key r <> "a"%char -> alignment a' = alignment a)
  /\ (key r <> "n"%char -> vol_id a' = vol_id a)
  /\ (key r <> "t"%char -> vol_type a' = vol_type a)
  /\ (key r <> "N"%char -> name a' = name a /\ nlen a' = nlen a)
  /\ (key r <> "d"%char -> node a' = node a).
Proof.
  key_cases r; key_bodies; simpl; intros H;
    try discriminate H; injection H as <- <-; simpl;
    repeat split; intros; congruence.
Qed.

Lemma parse_keys_untouched rs : forall a t a',
  parse_keys rs a = (t, Return (0, a')) ->
  (has_keyb "a" rs = false -> alignment a' = alignment a)
  /\ (has_keyb "n" rs = false -> vol_id a' = vol_id a)
  /\ (has_keyb "t" rs = false -> vol_type a' = vol_type a)
  /\ (has_keyb "N" rs = false -> name a' = name a /\ nlen a' = nlen a)
  /\ (has_keyb "d" rs = false -> node a' = node a).
Proof.
  induction rs as [|r rs IH]; intros a t a' H.
  - injection H as <- <-. repeat split; reflexivity.
  - rewrite parse_keys_cons in H. unfold has_keyb in *. simpl existsb.
    destruct (parse_key a r) as [w [[[|err] a1]|s|]] eqn:Hk;
      simpl in H; try discriminate.
    + destruct (parse_keys rs a1) as [t1 e1] eqn:E.
      injection H as <- ->.
      destruct (IH _ _ _ E) as (Ia & In_ & It & IN & Id).
      destruct (parse_key_untouched _ _ _ _ Hk) as (Ka & Kn & Kt & KN & Kd).
      split; [|split; [|split; [|split]]];
        rewrite orb_false_iff; intros [K1 K2]; apply Ascii.eqb_neq in K1.
      * rewrite (Ia K2). auto.
      * rewrite (In_ K2). auto.
      * rewrite (It K2). auto.
      * destruct (IN K2) as [-> ->]. auto.
      * rewrite (Id K2). auto.
    + injection H as _ E0 _. subst err.
      pose proof (parse_key_outcome a r) as O. rewrite Hk in O. inversion O.
Qed.

Ltac read_tests :=
  repeat match goal with
         | H : _ || _ = false |- _ =>
             apply orb_false_iff in H; destruct H
         | H : (_ <=? _) = false |- _ => apply Z.leb_gt in H
         | H : (_ <? _) = false |- _ => apply Z.ltb_ge in H
         end.

Lemma parse_key_configured nd0 a r w a' :
  parse_key a r = (w, Return (Break, a')) ->
  configured nd0 a -> configured nd0 a'.
Proof.
  unfold configured.
  key_cases r; key_bodies; simpl; intros H;
    try discriminate H; injection H as <- <-; simpl;
    intros (Ha & Hv & Hm & Hd & Hn); read_tests; simpl in *;
    repeat split; auto.
Qed.

Lemma parse_keys_configured nd0 rs : forall a t a',
  parse_keys rs a = (t, Return (0, a')) ->
  configured nd0 a -> configured nd0 a'.
Proof.
  induction rs as [|r rs IH]; intros a t a' H Hc.
  - injection H as <- <-. exact Hc.
  - rewrite parse_keys_cons in H.
    destruct (parse_key a r) as [w [[[|err] a1]|s|]] eqn:Hk;
      simpl in H; try discriminate.
    + destruct (parse_keys rs a1) as [t1 e1] eqn:E.
      injection H as <- ->.
      eapply IH; [exact E|]. eapply parse_key_configured; eassumption.
    + injection H as _ E0 _. subst err.
      pose proof (parse_key_outcome a r) as O. rewrite Hk in O. inversion O.
Qed.

Lemma start_configured argv : configured (nth 1 argv "") (start argv).
Proof.
  unfold configured, start. simpl. repeat split; auto; lia.
Qed.

(** X2.  Every configuration that the option scan hands on is well formed:
    the alignment is positive, the volume number is the automatic one or
    not negative, the maxavsize flag is 0 or 1, the name length is that of
    the name, and the device node is the one given first as long as the
    device number is the default -1, and "/dev/ubi<devn>" with a device
    number that is not negative otherwise. *)
Theorem scan_leaves_well_formed_configuration argv t a :
  parse_opt argv (start argv) = (t, Return (0, a)) ->
  configured (nth 1 argv "") a.
Proof.
  intros H. unfold parse_opt in H.
  eapply parse_keys_configured; [exact H|apply start_configured].
Qed.

(** ** A refused option *)

Lemma option_refused argv lib pre r rest t a d a' :
  argv_accepted argv = true ->
  getopt_long (tl argv) = (pre ++ r :: rest)%list ->
  parse_keys pre (start argv) = (t, Return (0, a)) ->
  parse_key a r = ([Errmsg d], Return (Returns (-1), a')) ->
  main argv lib = ((t ++ [Errmsg d])%list, Return (-1)).
Proof.
  intros Hacc Hscan Hpre Hk.
  rewrite (main_accepted _ _ Hacc), Hscan.
  rewrite (parse_keys_app pre (r :: rest) _ _ _ Hpre), parse_keys_cons, Hk.
  simpl. now rewrite app_nil_r.
Qed.

Lemma option_accepted pre r t a w a' :
  parse_keys pre a = (t, Return (0, a')) ->
  forall a'', parse_key a' r = (w, Return (Break, a'')) ->
  parse_keys (pre ++ [r]) a = ((t ++ w)%list, Return (0, a'')).
Proof.
  intros Hpre a'' Hk.
  rewrite (parse_keys_app pre [r] _ _ _ Hpre), parse_keys_cons, Hk.
  simpl. now rewrite app_nil_r.
Qed.

(** X1.  The type option takes the two words "dynamic" and "static", as
    written, and stores the type; with any other word the run ends there:
    one message about the bad volume type, return value -1, libubi not
    opened. *)
Theorem volume_type_option argv lib pre r rest t a :
  argv_accepted argv = true ->
  getopt_long (tl argv) = (pre ++ r :: rest)%list ->
  parse_keys pre (start argv) = (t, Return (0, a)) ->
  key r = "t"%char ->
  (optarg r = "dynamic" ->
   parse_keys (pre ++ [r]) (start argv)
   = (t, Return (0, set_vol_type a UBI_DYNAMIC_VOLUME)))
  /\ (optarg r = "static" ->
      parse_keys (pre ++ [r]) (start argv)
      = (t, Return (0, set_vol_type a UBI_STATIC_VOLUME)))
  /\ (optarg r <> "dynamic" -> optarg r <> "static" ->
      main argv lib
      = ((t ++ [Errmsg (Bad_volume_type (optarg r))])%list, Return (-1))
      /\ Forall (fun e => is_libubi_call e = false) t).
Proof.
  intros Hacc Hscan Hpre Hk.
  assert (parse_key a r = case_t a (optarg r)) as Hc
    by (unfold parse_key; now rewrite Hk).
  split; [|split].
  - intros Ho.
    rewrite (option_accepted pre r t _ [] _ Hpre
               (set_vol_type a UBI_DYNAMIC_VOLUME)).
    + now rewrite app_nil_r.
    + rewrite Hc, Ho. reflexivity.
  - intros Ho.
    rewrite (option_accepted pre r t _ [] _ Hpre
               (set_vol_type a UBI_STATIC_VOLUME)).
    + now rewrite app_nil_r.
    + rewrite Hc, Ho. reflexivity.
  - intros Hd Hs. split.
    + apply (option_refused argv lib pre r rest t a _ a Hacc Hscan Hpre).
      rewrite Hc. unfold case_t, streq.
      destruct (String.eqb_spec (optarg r) "dynamic"); [contradiction|].
      destruct (String.eqb_spec (optarg r) "static"); [contradiction|].
      reflexivity.
    + apply parse_events_no_call.
      pose proof (parse_keys_trace pre (start argv)) as H.
      now rewrite Hpre in H.
Qed.

(** ** The request and the calls around it *)

Ltac read_answers :=
  repeat match goal with
         | H : (_ =? _) = true |- _ => apply Z.eqb_eq in H
         | H : (_ <? _) = false |- _ => apply Z.ltb_ge in H
         | H : ?x = (_, _) |- context [?x] => rewrite H
         end.

(** A request is issued only after every check has passed. *)
Lemma create_mkvol_checked a lib nd req :
  In (Call_ubi_mkvol nd req) (trace_of (create a lib)) ->
  no_size_path a = false
  /\ (exists nm, name a = Some nm /\ to_int (strlen nm) <= UBI_MAX_VOLUME_NAME)
  /\ fst (on_get_info lib) = 0
  /\ devn a < to_int (dev_count (snd (on_get_info lib)))
  /\ fst (on_get_dev_info lib (node a)) = 0.
Proof.
  run_create; intros H; find_event.
  all: repeat match goal with
              | H : query_failed _ = false |- _ =>
                  unfold query_failed in H;
                  apply negb_false_iff, Z.eqb_eq in H
              | H : device_out_of_count _ _ = false |- _ =>
                  unfold device_out_of_count in H;
                  rewrite Z.geb_leb in H; apply Z.leb_gt in H
              | H : name_too_long _ _ = false |- _ =>
                  unfold name_too_long in H
              | H : no_name _ = false |- _ => unfold no_name in H
              end.
  all: destruct (name a) as [nm|]; try discriminate.
  all: read_answers; simpl.
  all: split; [reflexivity|].
  all: split; [exists nm; split; [reflexivity|]|repeat split; auto].
  all: match goal with
       | H : (_ >? _) = false |- _ => rewrite Z.gtb_ltb in H; read_answers
       end; lia.
Qed.

(** The volume is looked up under the device number of the node and the
    volume number that [ubi_mkvol] left in the request. *)
Lemma create_vol_info_query a lib dn id :
  In (Call_ubi_get_vol_info1 dn id) (trace_of (create a lib)) ->
  exists nd req,
    In (Call_ubi_mkvol nd req) (trace_of (create a lib))
    /\ dn = dev_num (snd (on_get_dev_info lib nd))
    /\ 0 <= fst (on_mkvol lib nd req)
    /\ id = snd (on_mkvol lib nd req).
Proof.
  run_create; intros H; find_event; subst;
    eexists _, _; (split; [simpl; eauto 8|]); read_answers; simpl; auto.
Qed.

(** X3.  Options that are not given leave their defaults in the request
    that is issued: alignment 1, automatic volume number, dynamic volume;
    and without the devn option the volume is created on the node given
    first on the command line. *)
Theorem request_defaults argv lib nd req :
  In (Call_ubi_mkvol nd req) (trace_of (main argv lib)) ->
  (has_keyb "a" (getopt_long (tl argv)) = false ->
   req_alignment req = Init 1)
  /\ (has_keyb "n" (getopt_long (tl argv)) = false ->
      req_vol_id req = Init UBI_VOL_NUM_AUTO)
  /\ (has_keyb "t" (getopt_long (tl argv)) = false ->
      req_vol_type req = Init UBI_DYNAMIC_VOLUME)
  /\ (has_keyb "d" (getopt_long (tl argv)) = false -> nd = nth 1 argv "").
Proof.
  intros Hin.
  destruct (main_event argv lib (Call_ubi_mkvol nd req) eq_refl Hin)
    as (t & a & Hp & _ & _ & Hc).
  destruct (create_mkvol a lib nd req Hc) as (-> & -> & _).
  destruct (parse_keys_untouched _ _ _ _ Hp) as (Ka & Kn & Kt & _ & Kd).
  simpl. repeat split; intros K.
  - now rewrite (Ka K).
  - now rewrite (Kn K).
  - now rewrite (Kt K).
  - now rewrite (Kd K).
Qed.

(** X8.  A request reaches libubi only validated and complete: every field
    of it has been assigned, the alignment is positive, the volume number
    is the automatic one or not negative, there is a name and its length is
    within the bound, both device queries have succeeded, and without the
    maxavsize flag the size is not 0. *)
Theorem issued_request_is_validated argv lib nd req :
  In (Call_ubi_mkvol nd req) (trace_of (main argv lib)) ->
  exists id al b ty nm,
    req = {| req_vol_id := Init id;
             req_alignment := Init al;
             req_bytes := Init b;
             req_vol_type := Init ty;
             req_name := Init (Some nm) |}
    /\ 0 < al
    /\ (id = UBI_VOL_NUM_AUTO \/ 0 <= id)
    /\ to_int (strlen nm) <= UBI_MAX_VOLUME_NAME
    /\ fst (on_get_info lib) = 0
    /\ fst (on_get_dev_info lib nd) = 0
    /\ (has_keyb "m" (getopt_long (tl argv)) = false -> b <> 0).
Proof.
  intros Hin.
  destruct (main_event argv lib (Call_ubi_mkvol nd req) eq_refl Hin)
    as (t & a & Hp & _ & _ & Hc).
  destruct (create_mkvol_checked a lib nd req Hc)
    as (Hsize & (nm & Hnm & Hlen) & Hinfo & _ & Hdev).
  destruct (create_mkvol a lib nd req Hc) as (-> & -> & _).
  destruct (parse_keys_configured (nth 1 argv "") _ _ _ _ Hp
              (start_configured argv)) as (Hal & Hid & _).
  destruct (parse_keys_accepted _ _ _ _ Hp) as (_ & _ & Hm & _).
  rewrite Hnm. eexists _, _, _, _, _. split; [reflexivity|].
  repeat split; try assumption.
  intros K. rewrite (Hm K) in *. simpl in *.
  unfold no_size_path in Hsize. rewrite (Hm K) in Hsize. simpl in Hsize.
  rewrite andb_true_r in Hsize. now apply Z.eqb_neq.
Qed.

(** X7.  The query that follows the creation asks for the volume under the
    device number that [ubi_get_dev_info] reported for the node and under
    the volume number that [ubi_mkvol] left in the request; it is made
    only when [ubi_mkvol] has not returned a negative value. *)
Theorem created_volume_is_queried argv lib dn id :
  In (Call_ubi_get_vol_info1 dn id) (trace_of (main argv lib)) ->
  exists nd req,
    In (Call_ubi_mkvol nd req) (trace_of (main argv lib))
    /\ dn = dev_num (snd (on_get_dev_info lib nd))
    /\ 0 <= fst (on_mkvol lib nd req)
    /\ id = snd (on_mkvol lib nd req).
Proof.
  intros Hin.
  destruct (main_event argv lib (Call_ubi_get_vol_info1 dn id) eq_refl Hin)
    as (t & a & _ & _ & Hm & Hc).
  destruct (create_vol_info_query a lib dn id Hc) as (nd & req & H1 & H2).
  exists nd, req. split; [|exact H2].
  rewrite Hm. simpl. apply in_or_app. now right.
Qed.

Lemma no_call_filter t :
  Forall (fun e => is_libubi_call e = false) t ->
  filter is_libubi_call t = [].
Proof.
  induction 1 as [|e t He _ IH]; [reflexivity|]. simpl. now rewrite He.
Qed.

Ltac read_all :=
  repeat match goal with
         | H : (_ =? _) = true |- _ => apply Z.eqb_eq in H
         | H : (_ =? _) = false |- _ => apply Z.eqb_neq in H
         | H : (_ <? _) = true |- _ => apply Z.ltb_lt in H
         | H : (_ <? _) = false |- _ => apply Z.ltb_ge in H
         | H : _ && _ = true |- _ => apply andb_true_iff in H; destruct H
         end.

Ltac use_answers :=
  unfold first_violated, checks_in_order;
  repeat match goal with
         | H : ?c = _ |- context [?c] => rewrite H
         end;
  cbn [fst snd].

Ltac settle_steps :=
  repeat match goal with
         | |- _ /\ _ => split
         | |- _ <-> _ => split; intros
         | H : _ /\ _ |- _ => destruct H
         end;
  try assumption; try reflexivity; try lia; try discriminate;
  try congruence.

(** How far a run gets once libubi is open: each call is made when, and
    only when, everything before it has succeeded. *)
Lemma create_calls a lib :
  on_open lib = true ->
  let nd := node a in
  let size :=
    if maxavs a =? 0 then bytes a
    else avail_bytes (snd (on_get_dev_info lib nd)) in
  let req := {| req_vol_id := Init (vol_id a);
                req_alignment := Init (alignment a);
                req_bytes := Init size;
                req_vol_type := Init (vol_type a);
                req_name := Init (name a) |} in
  let dn := dev_num (snd (on_get_dev_info lib nd)) in
  let id := snd (on_mkvol lib nd req) in
  exists k,
    (k <= 4)%nat
    /\ filter is_libubi_call (trace_of (create a lib)) =
       (Call_libubi_open true :: firstn k (calls_in_order nd req dn id)
        ++ match ending_of (create a lib) with
           | Trap => []
           | _ => [Call_libubi_close]
           end)%list
    /\ ((1 <= k)%nat <-> no_size_path a = false /\ no_name a = false)
    /\ ((2 <= k)%nat <->
        first_violated (checks_in_order UBI_MAX_VOLUME_NAME a lib) = None)
    /\ ((3 <= k)%nat <->
        (2 <= k)%nat /\ fst (on_get_dev_info lib nd) = 0)
    /\ ((4 <= k)%nat <->
        (3 <= k)%nat /\ 0 <= fst (on_mkvol lib nd req)).
Proof.
  intros Ho. cbv zeta. run_create; try congruence; read_all;
    first
      [ exists 0%nat; use_answers; now settle_steps
      | exists 1%nat; use_answers; now settle_steps
      | exists 2%nat; use_answers; now settle_steps
      | exists 3%nat; use_answers; now settle_steps
      | exists 4%nat; use_answers; now settle_steps ].
Qed.

(** X6.  The calls into libubi follow one fixed order, none is made twice,
    and each is made when, and only when, everything before it has
    succeeded.  Nothing is called unless the argument vector is accepted
    and the option scan returns 0; then [libubi_open] is called, and if it
    gives a handle the run goes on to [ubi_get_info] once a size path and a
    name are there, to [ubi_get_dev_info] once the validator has passed, to
    [ubi_mkvol] once that query has returned 0, and to [ubi_get_vol_info1]
    once [ubi_mkvol] has not returned a negative value; wherever it stops,
    the next and last call is [libubi_close] (which a trap in the report
    prevents). *)
Theorem libubi_calls_in_order argv lib :
  let calls := filter is_libubi_call (trace_of (main argv lib)) in
  (argv_accepted argv = false -> calls = [])
  /\ (forall t e,
        parse_keys (getopt_long (tl argv)) (start argv) = (t, e) ->
        (forall a, e <> Return (0, a)) -> calls = [])
  /\ (forall t a,
        argv_accepted argv = true ->
        parse_keys (getopt_long (tl argv)) (start argv) = (t, Return (0, a)) ->
        (on_open lib = false -> calls = [Call_libubi_open false])
        /\ (on_open lib = true ->
            let nd := node a in
            let size :=
              if maxavs a =? 0 then bytes a
              else avail_bytes (snd (on_get_dev_info lib nd)) in
            let req := {| req_vol_id := Init (vol_id a);
                          req_alignment := Init (alignment a);
                          req_bytes := Init size;
                          req_vol_type := Init (vol_type a);
                          req_name := Init (name a) |} in
            let dn := dev_num (snd (on_get_dev_info lib nd)) in
            let id := snd (on_mkvol lib nd req) in
            exists k,
              (k <= 4)%nat
              /\ calls =
                 (Call_libubi_open true
                  :: firstn k (calls_in_order nd req dn id)
                  ++ match ending_of (main argv lib) with
                     | Trap => []
                     | _ => [Call_libubi_close]
                     end)%list
              /\ ((1 <= k)%nat <->
                  no_size_path a = false /\ no_name a = false)
              /\ ((2 <= k)%nat <->
                  first_violated (checks_in_order UBI_MAX_VOLUME_NAME a lib)
                  = None)
              /\ ((3 <= k)%nat <->
                  (2 <= k)%nat /\ fst (on_get_dev_info lib nd) = 0)
              /\ ((4 <= k)%nat <->
                  (3 <= k)%nat /\ 0 <= fst (on_mkvol lib nd req)))).
Proof.
  cbv zeta. split; [|split].
  - intros Hacc. destruct (main_refused _ lib Hacc) as (d & -> & _).
    reflexivity.
  - intros t e Hp He.
    pose proof (parse_keys_trace (getopt_long (tl argv)) (start argv)) as Ht.
    rewrite Hp in Ht. simpl in Ht.
    destruct (argv_accepted argv) eqn:Hacc.
    + rewrite (main_accepted _ _ Hacc), Hp.
      destruct e as [[err a]|s|]; simpl.
      * destruct (Z.eqb_spec err 0) as [->|_]; [now elim (He a)|].
        simpl. rewrite app_nil_r.
        now apply no_call_filter, parse_events_no_call.
      * now apply no_call_filter, parse_events_no_call.
      * now apply no_call_filter, parse_events_no_call.
    + destruct (main_refused _ lib Hacc) as (d & -> & _). reflexivity.
  - intros t a Hacc Hp.
    pose proof (parse_keys_trace (getopt_long (tl argv)) (start argv)) as Ht.
    rewrite Hp in Ht. simpl in Ht.
    assert (main argv lib =
            ((t ++ trace_of (create a lib))%list, ending_of (create a lib)))
      as Hm.
    { rewrite (main_accepted _ _ Hacc), Hp. simpl.
      now destruct (create a lib). }
    rewrite Hm. simpl trace_of. simpl ending_of.
    rewrite filter_app, (no_call_filter t (parse_events_no_call _ Ht)).
    simpl app. split.
    + intros Ho. now rewrite (create_not_opened _ _ Ho).
    + intros Ho. exact (create_calls a lib Ho).
Qed.

(** ** Messages and return values *)

Lemma reported_warnings w :
  Forall (fun e => e = Warnmsg_devn_depricated) w -> reported w = [].
Proof. induction 1 as [|e w -> _ IH]; [reflexivity|exact IH]. Qed.

Lemma parse_keys_reported rs : forall a,
  match ending_of (parse_keys rs a) with
  | Return (err, _) =>
      (err = 0 /\ reported (trace_of (parse_keys rs a)) = [])
      \/ (err = -1
          /\ List.length (reported (trace_of (parse_keys rs a))) = 1%nat)
  | Exit s => (s = 0 \/ s = -1) /\ reported (trace_of (parse_keys rs a)) = []
  | Trap => False
  end.
Proof.
  induction rs as [|r rs IH]; intros a; [left; split; reflexivity|].
  rewrite parse_keys_cons.
  destruct (parse_key_outcome a r) as [a1 w Hw _ _ _ _|d a1 _| | |]; simpl;
    auto.
  specialize (IH a1). destruct (parse_keys rs a1) as [t1 e1]. simpl in *.
  rewrite reported_app, (reported_warnings _ Hw). exact IH.
Qed.

Lemma create_reported a lib :
  match ending_of (create a lib) with
  | Return s =>
      (s = 0 /\ reported (trace_of (create a lib)) = [])
      \/ (s = -1 /\ List.length (reported (trace_of (create a lib))) = 1%nat)
  | Exit _ => False
  | Trap => reported (trace_of (create a lib)) = []
  end.
Proof. run_create; auto. Qed.

(** X5.  A run writes an error message exactly when [main] returns -1, and
    then exactly one; a run that returns 0, that exits (with status 0 after
    the help or the version, with status -1 after an option that
    [getopt_long] does not accept) or that is killed by a trap writes
    none.  [main] returns nothing but 0 and -1. *)
Theorem one_message_per_failure argv lib :
  let t := trace_of (main argv lib) in
  match ending_of (main argv lib) with
  | Return s =>
      (s = 0 /\ reported t = [])
      \/ (s = -1 /\ List.length (reported t) = 1%nat)
  | Exit s => (s = 0 \/ s = -1) /\ reported t = []
  | Trap => reported t = []
  end.
Proof.
  cbv zeta. destruct (argv_accepted argv) eqn:Hacc.
  - rewrite (main_accepted _ _ Hacc).
    pose proof (parse_keys_reported (getopt_long (tl argv)) (start argv)) as Hp.
    destruct (parse_keys _ _) as [t [[err a]|s|]]; simpl in Hp;
      [|exact Hp|destruct Hp].
    destruct Hp as [[-> Hr]|[-> Hr]].
    + pose proof (create_reported a lib) as Hc.
      simpl. destruct (create a lib) as [tc ec]. simpl in *.
      rewrite reported_app, Hr. simpl.
      destruct ec; [exact Hc|destruct Hc|exact Hc].
    + simpl. rewrite app_nil_r. right. split; [reflexivity|exact Hr].
  - destruct (main_refused _ lib Hacc) as (d & -> & _). simpl.
    right. split; reflexivity.
Qed.

(** ** What [getopt_long] can return *)











(** ** Names *)

(** X9.  Once a size path and a name are there, the device manager has
    answered and the device number is within the count, the validator
    passes a name of at most [UBI_MAX_VOLUME_NAME] characters (the bound
    included) and refuses a longer one as too long, with its length in the
    message; the length is taken as an [int], which a name of less than
    2^31 characters fits. *)
Theorem name_length_bound a lib nm :
  no_size_path a = false ->
  name a = Some nm ->
  fst (on_get_info lib) = 0 ->
  devn a < to_int (dev_count (snd (on_get_info lib))) ->
  strlen nm < 2 ^ 31 ->
  (strlen nm <= UBI_MAX_VOLUME_NAME ->
   param_sanity_check a lib = ([Call_ubi_get_info], Return 0))
  /\ (UBI_MAX_VOLUME_NAME < strlen nm ->
      param_sanity_check a lib =
      ([Call_ubi_get_info; Errmsg (Too_long_name (strlen nm))], Return (-1))).
Proof.
  intros Hs Hn Hi Hd Hl.
  assert (to_int (strlen nm) = strlen nm) as Hint.
  { apply to_int_small. split; [apply Nat2Z.is_nonneg|exact Hl]. }
  rewrite param_sanity_check_cases, Hs.
  unfold no_name, query_failed, device_out_of_count, name_too_long.
  rewrite Hn, Hi, Hint. simpl negb. cbv iota.
  destruct (Z.geb_spec (devn a) (to_int (dev_count (snd (on_get_info lib)))));
    [lia|].
  split; intros Hb.
  - destruct (Z.gtb_spec (strlen nm) UBI_MAX_VOLUME_NAME); [lia|reflexivity].
  - destruct (Z.gtb_spec (strlen nm) UBI_MAX_VOLUME_NAME); [reflexivity|lia].
Qed.

Lemma create_missing_name a lib :
  on_open lib = true ->
  no_size_path a = false ->
  name a = None ->
  create a lib =
  ([Call_libubi_open true; Errmsg Volume_name_not_specified;
    Call_libubi_close], Return (-1)).
Proof.
  intros Ho Hs Hn. unfold create, libubi_open.
  rewrite Ho, param_sanity_check_cases, Hs. unfold no_name. rewrite Hn.
  reflexivity.
Qed.

(** X10.  When the name option is not among the options, the scan accepts
    every option and leaves a size path, and libubi opens, the run fails
    with the message that the volume name was not specified; the handle is
    closed again and no device query is made. *)
Theorem missing_name_reported argv lib t a :
  argv_accepted argv = true ->
  has_keyb "N" (getopt_long (tl argv)) = false ->
  parse_keys (getopt_long (tl argv)) (start argv) = (t, Return (0, a)) ->
  no_size_path a = false ->
  on_open lib = true ->
  main argv lib =
  ((t ++ [Call_libubi_open true; Errmsg Volume_name_not_specified;
          Call_libubi_close])%list, Return (-1)).
Proof.
  intros Hacc HN Hp Hs Ho.
  rewrite (main_accepted _ _ Hacc), Hp.
  destruct (parse_keys_untouched _ _ _ _ Hp) as (_ & _ & _ & Hname & _).
  destruct (Hname HN) as [Hn _]. simpl in Hn.
  simpl. now rewrite (create_missing_name _ _ Ho Hs Hn).
Qed.

(** ** The node, the report and the trap of its division *)


Lemma create_report_fields a lib eb ty nm :
  In (Printf_leb_size eb ty nm) (trace_of (create a lib)) ->
  exists nd req dn id,
    In (Call_ubi_mkvol nd req) (trace_of (create a lib))
    /\ In (Call_ubi_get_vol_info1 dn id) (trace_of (create a lib))
    /\ fst (on_get_vol_info1 lib dn id) = 0
    /\ eb = eb_size (snd (on_get_vol_info1 lib dn id))
    /\ nm = vi_name (snd (on_get_vol_info1 lib dn id))
    /\ ty = req_vol_type req
    /\ ty = Init (vol_type a)
    /\ eb <> 0.
Proof.
  run_create; intros H; find_event; subst;
    eexists _, _, _, _;
    (split; [simpl; eauto 8|]); (split; [simpl; eauto 8|]);
    read_answers; simpl; repeat split; auto;
    match goal with
    | H : (eb_size _ =? 0) = false |- _ => now apply Z.eqb_neq in H
    end.
Qed.

(** X12.  The last line of the report takes the LEB size and the name from
    the volume information that was just queried, and the volume type from
    the request, where it has been assigned from the configuration: a
    report shows the type that was asked for, and it is printed only for a
    volume whose LEB size is not 0. *)
Theorem report_shows_requested_type argv lib eb ty nm :
  In (Printf_leb_size eb ty nm) (trace_of (main argv lib)) ->
  exists nd req dn id,
    In (Call_ubi_mkvol nd req) (trace_of (main argv lib))
    /\ In (Call_ubi_get_vol_info1 dn id) (trace_of (main argv lib))
    /\ fst (on_get_vol_info1 lib dn id) = 0
    /\ eb = eb_size (snd (on_get_vol_info1 lib dn id))
    /\ nm = vi_name (snd (on_get_vol_info1 lib dn id))
    /\ ty = req_vol_type req
    /\ (exists v, ty = Init v)
    /\ eb <> 0.
Proof.
  intros Hin.
  destruct (main_event argv lib (Printf_leb_size eb ty nm) eq_refl Hin)
    as (t & a & _ & _ & Hm & Hc).
  destruct (create_report_fields a lib eb ty nm Hc)
    as (nd & req & dn & id & H1 & H2 & H3 & H4 & H5 & H6 & H7 & H8).
  exists nd, req, dn, id. rewrite Hm. simpl trace_of.
  split; [apply in_or_app; now right|].
  split; [apply in_or_app; now right|].
  repeat split; try assumption. now exists (vol_type a).
Qed.

Lemma create_trap a lib :
  ending_of (create a lib) = Trap ->
  exists dn id,
    In (Call_ubi_get_vol_info1 dn id) (trace_of (create a lib))
    /\ fst (on_get_vol_info1 lib dn id) = 0
    /\ (eb_size (snd (on_get_vol_info1 lib dn id)) = 0
        \/ (rsvd_bytes (snd (on_get_vol_info1 lib dn id)) = LLONG_MIN
            /\ eb_size (snd (on_get_vol_info1 lib dn id)) = -1)).
Proof.
  run_create; intros H; try discriminate H;
    eexists _, _; (split; [simpl; eauto 8|]);
    repeat match goal with
           | H : _ && _ = true |- _ => apply andb_true_iff in H; destruct H
           end;
    read_answers; simpl; auto.
Qed.

(** X13.  A run that is killed by the trap of the division in the report
    (reserved bytes by LEB size) has created the volume and has queried it
    with success, and the volume information gives a LEB size of 0 (or the
    pair of the least [long long] and -1); none of the three lines of the
    report has been written and the handle has not been closed.  The
    division is the one trap of the model; the overflow of the size
    product, which C leaves undefined, is modelled as a wrap and not as a
    trap. *)
Theorem division_trap_in_report argv lib :
  ending_of (main argv lib) = Trap ->
  (exists dn id,
      In (Call_ubi_get_vol_info1 dn id) (trace_of (main argv lib))
      /\ fst (on_get_vol_info1 lib dn id) = 0
      /\ (eb_size (snd (on_get_vol_info1 lib dn id)) = 0
          \/ (rsvd_bytes (snd (on_get_vol_info1 lib dn id)) = LLONG_MIN
              /\ eb_size (snd (on_get_vol_info1 lib dn id)) = -1)))
  /\ filter is_close (trace_of (main argv lib)) = []
  /\ (forall v l b, ~ In (Printf_volume_id v l b) (trace_of (main argv lib)))
  /\ (forall u b d, ~ In (Printf_size u b d) (trace_of (main argv lib)))
  /\ (forall eb ty nm,
        ~ In (Printf_leb_size eb ty nm) (trace_of (main argv lib))).
Proof.
  intros Hend.
  destruct (main_shape argv lib) as [(_ & Hn & _)|(_ & t & a & Hp & Hm)];
    [contradiction|].
  rewrite Hm in *. simpl in Hend. simpl trace_of.
  pose proof (parse_keys_trace (getopt_long (tl argv)) (start argv)) as Ht.
  rewrite Hp in Ht. simpl in Ht.
  split; [|split; [|split; [|split]]].
  - destruct (create_trap a lib Hend) as (dn & id & H1 & H2).
    exists dn, id. split; [apply in_or_app; now right|exact H2].
  - rewrite filter_app, (parse_events_no_close _ Ht). simpl.
    revert Hend. clear. run_create; intros H; try discriminate H; reflexivity.
  - intros v l b Hin. apply in_app_or in Hin. destruct Hin as [Hin|Hin].
    + pose proof (parse_events_only _ _ Ht Hin) as E. discriminate E.
    + revert Hend Hin. clear.
      run_create; intros H; try discriminate H; intros Hin; find_event.
  - intros u b d Hin. apply in_app_or in Hin. destruct Hin as [Hin|Hin].
    + pose proof (parse_events_only _ _ Ht Hin) as E. discriminate E.
    + revert Hend Hin. clear.
      run_create; intros H; try discriminate H; intros Hin; find_event.
  - intros eb ty nm Hin. apply in_app_or in Hin. destruct Hin as [Hin|Hin].
    + pose proof (parse_events_only _ _ Ht Hin) as E. discriminate E.
    + revert Hend Hin. clear.
      run_create; intros H; try discriminate H; intros Hin; find_event.
Qed.

End Ubimkvol.

(** * Runs on concrete command lines *)

(** ** The C library models on examples *)

Example strtoull_decimal : strtoull "10MiB" = (10, 2%nat).
Proof. reflexivity. Qed.

Example strtoull_hexadecimal : strtoull " 0x1fKiB" = (31, 5%nat).
Proof. reflexivity. Qed.

Example strtoull_octal : strtoull "010" = (8, 3%nat).
Proof. reflexivity. Qed.

Example strtoull_minus_one : strtoull "-1" = (ULLONG_MAX, 2%nat).
Proof. reflexivity. Qed.

Example strtoull_no_digits : strtoull "MiB" = (0, O).
Proof. reflexivity. Qed.

Example strtoull_bare_0x : strtoull "0xg" = (0, 1%nat).
Proof. reflexivity. Qed.

Example strtoull_out_of_range :
  strtoull "99999999999999999999999" = (ULLONG_MAX, 23%nat).
Proof. reflexivity. Qed.

Example getopt_short_and_long :
  getopt_long ["/dev/ubi0"; "--name=data"; "--size"; "10MiB"; "-tdynamic";
               "stray"; "-hV"; "--v"; "--he"; "--"; "-m"]
  = [ {| key := "N"; optarg := "data" |};
      {| key := "s"; optarg := "10MiB" |};
      {| key := "t"; optarg := "dynamic" |};
      {| key := "h"; optarg := "" |};
      {| key := "V"; optarg := "" |};
      {| key := "?"; optarg := "" |};
      {| key := "h"; optarg := "" |} ]%char.
Proof. reflexivity. Qed.

Example getopt_skips_the_node :
  getopt_long ["-h"; "-m"] = [ {| key := "m"; optarg := "" |} ]%char.
Proof. reflexivity. Qed.

(** ** The scenarios of the design document *)

(** The header constants are given the values 127 (longest volume name)
    and -1 (automatic volume number). *)

Example scenario_1 :
  main 127 (-1)
    ["ubimkvol"; "/dev/ubi0"; "-N"; "data"; "-s"; "10MiB"; "-t"; "dynamic"]
    (sample_lib 126976 10539008)
  = ([Call_libubi_open true; Call_ubi_get_info;
      Call_ubi_get_dev_info "/dev/ubi0";
      Call_ubi_mkvol "/dev/ubi0"
        {| req_vol_id := Init (-1);
           req_alignment := Init 1;
           req_bytes := Init 10485760;
           req_vol_type := Init UBI_DYNAMIC_VOLUME;
           req_name := Init (Some "data") |};
      Call_ubi_get_vol_info1 0 0;
      Printf_volume_id 0 83 10539008;
      Printf_size MiB 10539008 1048576;
      Printf_leb_size 126976 (Init UBI_DYNAMIC_VOLUME) "data";
      Call_libubi_close],
     Return 0).
Proof. vm_compute. reflexivity. Qed.

Example scenario_4 :
  main 127 (-1)
    ["ubimkvol"; "/dev/ubi0"; "-N"; "data"; "-s"; "1MiB"; "-t"; "archive"]
    (sample_lib 126976 10539008)
  = ([Errmsg (Bad_volume_type "archive")], Return (-1)).
Proof. vm_compute. reflexivity. Qed.

Example scenario_5 :
  main 127 (-1) ["ubimkvol"; "/dev/ubi0"; "-s"; "10MiB"]
    (sample_lib 126976 10539008)
  = ([Call_libubi_open true; Errmsg Volume_name_not_specified;
      Call_libubi_close],
     Return (-1)).
Proof. vm_compute. reflexivity. Qed.

Example devn_beyond_the_count :
  main 127 (-1) ["ubimkvol"; "/dev/ubi0"; "-d"; "5"; "-N"; "data"; "-s"; "1"]
    (sample_lib 126976 126976)
  = ([Warnmsg_devn_depricated; Call_libubi_open true; Call_ubi_get_info;
      Errmsg (UBI_device_does_not_exist 5); Call_libubi_close],
     Return (-1)).
Proof. vm_compute. reflexivity. Qed.

(** The deprecated device number replaces the node given first. *)
Example devn_replaces_the_node :
  main 127 (-1) ["ubimkvol"; "/dev/ubi7"; "-d"; "0"; "-N"; "data"; "-s"; "1"]
    (sample_lib 126976 126976)
  = ([Warnmsg_devn_depricated; Call_libubi_open true; Call_ubi_get_info;
      Call_ubi_get_dev_info "/dev/ubi0";
      Call_ubi_mkvol "/dev/ubi0"
        {| req_vol_id := Init (-1);
           req_alignment := Init 1;
           req_bytes := Init 1;
           req_vol_type := Init UBI_DYNAMIC_VOLUME;
           req_name := Init (Some "data") |};
      Call_ubi_get_vol_info1 0 0;
      Printf_volume_id 0 1 126976;
      Printf_size KiB 126976 1024;
      Printf_leb_size 126976 (Init UBI_DYNAMIC_VOLUME) "data";
      Call_libubi_close],
     Return 0).
Proof. vm_compute. reflexivity. Qed.

(** A volume reported with LEBs of no bytes stops the report at its
    division. *)
Example zero_lebs_trap :
  ending_of (main 127 (-1) ["ubimkvol"; "/dev/ubi0"; "-N"; "data"; "-s"; "1"]
               (sample_lib 0 126976)) = Trap.
Proof. vm_compute. reflexivity. Qed.

(** ** The claims on concrete runs *)

(** Claim C1 fails as stated: a volume of exactly 1 GiB (8192 LEBs of
    128 KiB) is created and reported in MiB, not in GiB. *)
Lemma one_GiB_is_reported_in_MiB :
  let argv := ["ubimkvol"; "/dev/ubi0"; "-N"; "data"; "-s"; "1GiB"] in
  let lib := sample_lib 131072 (2 ^ 30) in
  2 ^ 30 <= rsvd_bytes (snd (on_get_vol_info1 lib 0 0))
  /\ ending_of (main 127 (-1) argv lib) = Return 0
  /\ In (Printf_size MiB (2 ^ 30) (1024 * 1024))
       (trace_of (main 127 (-1) argv lib))
  /\ ~ (exists b d, In (Printf_size GiB b d)
                      (trace_of (main 127 (-1) argv lib))).
Proof.
  cbv zeta. split; [vm_compute; discriminate|].
  split; [vm_compute; reflexivity|].
  split; [vm_compute; tauto|].
  intros (b & d & H). vm_compute in H.
  repeat destruct H as [H|H]; try discriminate H. exact H.
Qed.

Lemma reported_size_unit_witness :
  let lib := sample_lib 126976 10539008 in
  let argv := ["ubimkvol"; "/dev/ubi0"; "-N"; "data"; "-s"; "10MiB"] in
  let b := rsvd_bytes (snd (on_get_vol_info1 lib 0 0)) in
  let u := report_unit b in
  let d := unit_divisor u in
  In (Printf_size u b d) (trace_of (main 127 (-1) argv lib))
  /\ (1024 * 1024 * 1024 < b -> u = GiB)
  /\ (1024 * 1024 < b <= 1024 * 1024 * 1024 -> u = MiB)
  /\ (b <= 1024 * 1024 -> u = KiB)
  /\ (exists ip f,
        0 <= ip /\ 0 <= f <= 9
        /\ 10 * ip + f = Z.abs (size_tenths b d)
        /\ size_text u b d =
           (sign_text b ++ decimal ip ++ "." ++ decimal f
            ++ " " ++ unit_name u ++ ")")%string)
  /\ (Z.abs b < 2 ^ 53 -> 2 * Z.abs (10 * b - size_tenths b d * d) <= d)
  /\ (b = 1024 * 1024 * 1024 -> size_text u b d = "1024.0 MiB)")
  /\ (b = 1024 * 1024 -> size_text u b d = "1024.0 KiB)").
Proof.
  apply (reported_size_unit 127 (-1)
           ["ubimkvol"; "/dev/ubi0"; "-N"; "data"; "-s"; "10MiB"]
           (sample_lib 126976 10539008) 0 0).
  - vm_compute. tauto.
  - vm_compute. reflexivity.
  - vm_compute. discriminate.
  - vm_compute. intros [H _]. discriminate H.
Defined.

Example size_text_10MiB_volume :
  size_text MiB 10539008 (1024 * 1024) = "10.1 MiB)".
Proof. vm_compute. reflexivity. Qed.

(** A quotient half way between two tenths goes to the even one, and a
    negative quotient keeps its sign when it is rounded to zero. *)
Example size_text_quarter_KiB : size_text KiB 256 1024 = "0.2 KiB)".
Proof. vm_compute. reflexivity. Qed.

Example size_text_minus_one_byte : size_text KiB (-1) 1024 = "-0.0 KiB)".
Proof. vm_compute. reflexivity. Qed.

(** Beyond 53 bits the byte count is rounded before it is divided. *)
Example size_text_beyond_53_bits :
  size_text GiB (2 ^ 53 + 1) (1024 * 1024 * 1024) = "8388608.0 GiB)".
Proof. vm_compute. reflexivity. Qed.

(** Claim C2 fails as stated: with the help flag as the only argument the
    run stops at the count of arguments, with a failure and no help. *)
Lemma help_alone_is_refused :
  existsb is_help_flag ["ubimkvol"; "-h"] = true
  /\ main 127 (-1) ["ubimkvol"; "-h"] (sample_lib 126976 126976)
     = ([Errmsg Too_few_arguments], Return (-1)).
Proof. split; vm_compute; reflexivity. Qed.

Example version_alone_is_refused :
  existsb is_version_flag ["ubimkvol"; "--version"] = true
  /\ main 127 (-1) ["ubimkvol"; "--version"] (sample_lib 126976 126976)
     = ([Errmsg Too_few_arguments], Return (-1)).
Proof. split; vm_compute; reflexivity. Qed.

(** In the place of the device node the flag is not seen by the scan. *)
Example help_as_the_node :
  main 127 (-1) ["ubimkvol"; "-h"; "-N"; "data"] (sample_lib 126976 126976)
  = ([Call_libubi_open true; Errmsg Volume_size_not_specified;
      Call_libubi_close],
     Return (-1)).
Proof. vm_compute. reflexivity. Qed.

(** Nor does the flag help behind an option that is refused. *)
Example help_after_a_refused_option :
  main 127 (-1) ["ubimkvol"; "/dev/ubi0"; "-t"; "archive"; "-h"]
    (sample_lib 126976 126976)
  = ([Errmsg (Bad_volume_type "archive")], Return (-1)).
Proof. vm_compute. reflexivity. Qed.

Lemma help_version_short_circuit_witness :
  let argv := ["ubimkvol"; "/dev/ubi0"; "-N"; "data"; "-h"; "-s"; "bogus"] in
  let lib := sample_lib 126976 126976 in
  let r := {| key := "h"; optarg := "" |} in
  (key r = "h"%char ->
   main 127 (-1) argv lib = ([] ++ [Help_text], Exit 0)%list)
  /\ (key r = "V"%char ->
      main 127 (-1) argv lib = ([] ++ [Version_text], Exit 0)%list)
  /\ Forall (fun e => is_libubi_call e = false) [].
Proof.
  apply (help_version_short_circuit 127 (-1)
           ["ubimkvol"; "/dev/ubi0"; "-N"; "data"; "-h"; "-s"; "bogus"]
           (sample_lib 126976 126976)
           [{| key := "N"; optarg := "data" |}]
           {| key := "h"; optarg := "" |}
           [{| key := "s"; optarg := "bogus" |}]
           []
           (set_name (start (-1) ["ubimkvol"; "/dev/ubi0"]) (Some "data") 4)).
  - vm_compute. reflexivity.
  - vm_compute. reflexivity.
  - vm_compute. reflexivity.
Defined.

(** Claim C3 fails as stated: without size and without maxavsize the run
    may fail for another reason first; here the volume type is refused and
    the missing size is never reported. *)
Lemma missing_size_hidden_by_bad_type :
  let argv := ["ubimkvol"; "/dev/ubi0"; "-t"; "archive"] in
  has_keyb "s" (getopt_long (tl argv)) = false
  /\ has_keyb "m" (getopt_long (tl argv)) = false
  /\ main 127 (-1) argv (sample_lib 126976 126976)
     = ([Errmsg (Bad_volume_type "archive")], Return (-1))
  /\ reported (trace_of (main 127 (-1) argv (sample_lib 126976 126976)))
     = [Some InvalidVolumeType].
Proof. cbv zeta. repeat split; vm_compute; reflexivity. Qed.

Lemma missing_size_reported_witness :
  main 127 (-1) ["ubimkvol"; "/dev/ubi0"; "-N"; "data"]
    (sample_lib 126976 126976)
  = (([] ++ [Call_libubi_open true; Errmsg Volume_size_not_specified;
             Call_libubi_close])%list, Return (-1))
  /\ kind_of Volume_size_not_specified = Some MissingSize.
Proof.
  apply (missing_size_reported 127 (-1)
           ["ubimkvol"; "/dev/ubi0"; "-N"; "data"]
           (sample_lib 126976 126976) []
           (set_name (start (-1) ["ubimkvol"; "/dev/ubi0"]) (Some "data") 4)).
  - vm_compute. reflexivity.
  - vm_compute. reflexivity.
  - vm_compute. reflexivity.
  - vm_compute. reflexivity.
  - vm_compute. reflexivity.
Defined.

Lemma maxavsize_sets_request_size_witness :
  let argv := ["ubimkvol"; "/dev/ubi0"; "-N"; "data"; "-s"; "10MiB"; "-m"] in
  let lib := sample_lib 126976 5079040 in
  let req := {| req_vol_id := Init (-1);
                req_alignment := Init 1;
                req_bytes := Init 5000000;
                req_vol_type := Init UBI_DYNAMIC_VOLUME;
                req_name := Init (Some "data") |} in
  req_bytes req = Init (avail_bytes (snd (on_get_dev_info lib "/dev/ubi0")))
  /\ exists t1 t2 v,
       trace_of (main 127 (-1) argv lib) =
       (t1 ++ [Call_ubi_get_info; Call_ubi_get_dev_info "/dev/ubi0";
               Printf_set_volume_size v; Call_ubi_mkvol "/dev/ubi0" req]
           ++ t2)%list.
Proof.
  apply (maxavsize_sets_request_size 127 (-1)
           ["ubimkvol"; "/dev/ubi0"; "-N"; "data"; "-s"; "10MiB"; "-m"]
           (sample_lib 126976 5079040) "/dev/ubi0").
  - vm_compute. reflexivity.
  - vm_compute. tauto.
Defined.

(** Claim C6 fails as stated: 2^63 followed by KiB is a numeric prefix with
    a recognized suffix, yet the option is refused, and no [long long]
    could hold the product. *)
Lemma size_beyond_long_long_is_refused :
  let optarg := "9223372036854775808KiB" in
  strtoull optarg = (2 ^ 63, 19%nat)
  /\ ubiutils_get_multiplier (str_drop 19 optarg) = 1024
  /\ case_s (myargs (-1)) optarg =
     ([Errmsg (Bad_volume_size optarg)],
      Return (Returns (-1), set_bytes (myargs (-1)) (- 2 ^ 63))).
Proof. cbv zeta. repeat split; vm_compute; reflexivity. Qed.

Lemma size_is_value_times_unit_witness :
  let a := myargs (-1) in
  let mult := ubiutils_get_multiplier (str_drop 2 "10MiB") in
  (2%nat <> O -> mult <> -1 -> 10 <= LLONG_MAX -> 10 * mult <= LLONG_MAX ->
   case_s a "10MiB" = ret (Break, set_bytes a (10 * mult))
   /\ bytes (set_bytes a (10 * mult)) = 10 * mult)
  /\ (mult = -1 ->
      exists d a',
        case_s a "10MiB" = (errmsg d ;; ret (Returns (-1), a'))%prog
        /\ kind_of d = Some InvalidSize).
Proof.
  apply (size_is_value_times_unit (myargs (-1)) "10MiB" 10 2%nat).
  vm_compute. reflexivity.
Defined.

Example size_10MiB :
  case_s (myargs (-1)) "10MiB"
  = ret (Break, set_bytes (myargs (-1)) 10485760).
Proof. vm_compute. reflexivity. Qed.

Example size_unknown_unit :
  case_s (myargs (-1)) "10kB"
  = ([Errmsg (Bad_size_specifier "kB")],
     Return (Returns (-1), set_bytes (myargs (-1)) 10)).
Proof. vm_compute. reflexivity. Qed.

(** Scenario 3 of the document: the size "-1" is refused before libubi is
    opened. *)
Example scenario_3 :
  main 127 (-1) ["ubimkvol"; "/dev/ubi0"; "-N"; "data"; "-s"; "-1"]
    (sample_lib 126976 126976)
  = ([Errmsg (Bad_volume_size "-1")], Return (-1)).
Proof. vm_compute. reflexivity. Qed.

(** Claim C7 at the size "-18446744073709551615": [strtoull] negates the
    magnitude in the unsigned type, which gives 1; the sign test of the
    size option sees a positive number, the scan accepts it, libubi is
    opened and a volume of 1 byte is requested. *)
Theorem negative_size_accepted :
  let argv := ["ubimkvol"; "/dev/ubi0"; "-N"; "data"; "-s";
               "-18446744073709551615"] in
  strtoull "-18446744073709551615" = (1, 21%nat)
  /\ main 127 (-1) argv (sample_lib 126976 126976)
     = ([Call_libubi_open true; Call_ubi_get_info;
         Call_ubi_get_dev_info "/dev/ubi0";
         Call_ubi_mkvol "/dev/ubi0"
           {| req_vol_id := Init (-1);
              req_alignment := Init 1;
              req_bytes := Init 1;
              req_vol_type := Init UBI_DYNAMIC_VOLUME;
              req_name := Init (Some "data") |};
         Call_ubi_get_vol_info1 0 0;
         Printf_volume_id 0 1 126976;
         Printf_size KiB 126976 1024;
         Printf_leb_size 126976 (Init UBI_DYNAMIC_VOLUME) "data";
         Call_libubi_close],
        Return 0).
Proof. cbv zeta. split; vm_compute; reflexivity. Qed.

(** Claim C8 fails as stated: when the volume information gives a LEB size
    of 0, the division in the report stops the run after libubi was opened
    and the volume created, and the handle is never closed. *)
Lemma handle_left_open_by_trap :
  let argv := ["ubimkvol"; "/dev/ubi0"; "-N"; "data"; "-s"; "1"] in
  let lib := sample_lib 0 126976 in
  main 127 (-1) argv lib
  = ([Call_libubi_open true; Call_ubi_get_info;
      Call_ubi_get_dev_info "/dev/ubi0";
      Call_ubi_mkvol "/dev/ubi0"
        {| req_vol_id := Init (-1);
           req_alignment := Init 1;
           req_bytes := Init 1;
           req_vol_type := Init UBI_DYNAMIC_VOLUME;
           req_name := Init (Some "data") |};
      Call_ubi_get_vol_info1 0 0],
     Trap)
  /\ In (Call_libubi_open true) (trace_of (main 127 (-1) argv lib))
  /\ filter is_close (trace_of (main 127 (-1) argv lib)) = [].
Proof.
  cbv zeta. split; [vm_compute; reflexivity|].
  split; [vm_compute; tauto|vm_compute; reflexivity].
Qed.

Lemma handle_closed_exactly_once_witness :
  exists t,
    trace_of (main 127 (-1) ["ubimkvol"; "/dev/ubi0"; "-N"; "data"]
                (sample_lib 126976 126976))
    = (t ++ [Call_libubi_close])%list
    /\ filter is_close t = []
    /\ In (Call_libubi_open true) t.
Proof.
  apply (handle_closed_exactly_once 127 (-1)
           ["ubimkvol"; "/dev/ubi0"; "-N"; "data"]
           (sample_lib 126976 126976)).
  - vm_compute. tauto.
  - vm_compute. discriminate.
Defined.

(** Claim C9 on scenario 2 of the document: with maxavsize and 5000000
    bytes available the request carries 5000000 bytes, but the message
    about the size prints [req.bytes] before anything is stored there. *)
Theorem set_volume_size_prints_unassigned_field :
  main 127 (-1) ["ubimkvol"; "/dev/ubi0"; "-N"; "data"; "-m"]
    (sample_lib 126976 5079040)
  = ([Call_libubi_open true; Call_ubi_get_info;
      Call_ubi_get_dev_info "/dev/ubi0";
      Printf_set_volume_size Uninit;
      Call_ubi_mkvol "/dev/ubi0"
        {| req_vol_id := Init (-1);
           req_alignment := Init 1;
           req_bytes := Init 5000000;
           req_vol_type := Init UBI_DYNAMIC_VOLUME;
           req_name := Init (Some "data") |};
      Call_ubi_get_vol_info1 0 0;
      Printf_volume_id 0 40 5079040;
      Printf_size MiB 5079040 1048576;
      Printf_leb_size 126976 (Init UBI_DYNAMIC_VOLUME) "data";
      Call_libubi_close],
     Return 0).
Proof. vm_compute. reflexivity. Qed.

Lemma device_count_check_needs_devn_witness :
  let argv := ["ubimkvol"; "/dev/ubi7"; "-N"; "data"; "-s"; "1"] in
  let lib := sample_lib 126976 126976 in
  (forall n,
      ~ In (Errmsg (UBI_device_does_not_exist n))
          (trace_of (main 127 (-1) argv lib)))
  /\ ~ In (Some DeviceNotFound) (reported (trace_of (main 127 (-1) argv lib)))
  /\ (forall a nd,
        param_sanity_check 127 (set_node a nd) lib
        = param_sanity_check 127 a lib).
Proof.
  apply (device_count_check_needs_devn 127 (-1)
           ["ubimkvol"; "/dev/ubi7"; "-N"; "data"; "-s"; "1"]
           (sample_lib 126976 126976)).
  - vm_compute. reflexivity.
  - simpl. lia.
Defined.

(** The node "/dev/ubi7" of a device manager with a single device gets
    past the validator; it is the query on the node that fails. *)
Example node_beyond_the_count :
  main 127 (-1) ["ubimkvol"; "/dev/ubi7"; "-N"; "data"; "-s"; "1"]
    (sample_lib 126976 126976)
  = ([Call_libubi_open true; Call_ubi_get_info;
      Call_ubi_get_dev_info "/dev/ubi7";
      Errmsg (Cannot_get_device_information (-1) "/dev/ubi7");
      Perror "ubi_get_dev_info"; Call_libubi_close],
     Return (-1)).
Proof. vm_compute. reflexivity. Qed.

(** ** The further properties on concrete runs *)

Lemma volume_type_option_witness :
  let argv := ["ubimkvol"; "/dev/ubi0"; "-N"; "data"; "-t"; "archive"; "-m"] in
  let lib := sample_lib 126976 126976 in
  let r := {| key := "t"; optarg := "archive" |} in
  let a := set_name (start (-1) argv) (Some "data") 4 in
  (optarg r = "dynamic" ->
   parse_keys ([{| key := "N"; optarg := "data" |}] ++ [r]) (start (-1) argv)
   = ([], Return (0, set_vol_type a UBI_DYNAMIC_VOLUME)))
  /\ (optarg r = "static" ->
      parse_keys ([{| key := "N"; optarg := "data" |}] ++ [r])
        (start (-1) argv)
      = ([], Return (0, set_vol_type a UBI_STATIC_VOLUME)))
  /\ (optarg r <> "dynamic" -> optarg r <> "static" ->
      main 127 (-1) argv lib
      = (([] ++ [Errmsg (Bad_volume_type (optarg r))])%list, Return (-1))
      /\ Forall (fun e => is_libubi_call e = false) []).
Proof.
  apply (volume_type_option 127 (-1)
           ["ubimkvol"; "/dev/ubi0"; "-N"; "data"; "-t"; "archive"; "-m"]
           (sample_lib 126976 126976)
           [{| key := "N"; optarg := "data" |}]
           {| key := "t"; optarg := "archive" |}
           [{| key := "m"; optarg := "" |}]
           []
           (set_name (start (-1) ["ubimkvol"; "/dev/ubi0"]) (Some "data") 4)).
  - vm_compute. reflexivity.
  - vm_compute. reflexivity.
  - vm_compute. reflexivity.
  - vm_compute. reflexivity.
Defined.

Lemma scan_leaves_well_formed_configuration_witness :
  configured (-1) "/dev/ubi7"
    {| devn := 3; vol_id := 2; vol_type := UBI_STATIC_VOLUME;
       bytes := 2097152; alignment := 8; name := Some "data"; nlen := 4;
       node := "/dev/ubi3"; maxavs := 1 |}.
Proof.
  apply (scan_leaves_well_formed_configuration (-1)
           ["ubimkvol"; "/dev/ubi7"; "-a"; "8"; "-d"; "3"; "-n"; "2";
            "--name=data"; "-s"; "2MiB"; "-t"; "static"; "-m"]
           [Warnmsg_devn_depricated]).
  vm_compute. reflexivity.
Defined.

Lemma request_defaults_witness :
  let argv := ["ubimkvol"; "/dev/ubi0"; "-N"; "data"; "-s"; "10MiB"] in
  let req := {| req_vol_id := Init (-1);
                req_alignment := Init 1;
                req_bytes := Init 10485760;
                req_vol_type := Init UBI_DYNAMIC_VOLUME;
                req_name := Init (Some "data") |} in
  (has_keyb "a" (getopt_long (tl argv)) = false ->
   req_alignment req = Init 1)
  /\ (has_keyb "n" (getopt_long (tl argv)) = false ->
      req_vol_id req = Init (-1))
  /\ (has_keyb "t" (getopt_long (tl argv)) = false ->
      req_vol_type req = Init UBI_DYNAMIC_VOLUME)
  /\ (has_keyb "d" (getopt_long (tl argv)) = false ->
      "/dev/ubi0" = nth 1 argv "").
Proof.
  apply (request_defaults 127 (-1)
           ["ubimkvol"; "/dev/ubi0"; "-N"; "data"; "-s"; "10MiB"]
           (sample_lib 126976 10539008) "/dev/ubi0").
  vm_compute. tauto.
Defined.

Lemma created_volume_is_queried_witness :
  let argv := ["ubimkvol"; "/dev/ubi0"; "-N"; "data"; "-s"; "10MiB"] in
  let lib := sample_lib 126976 10539008 in
  exists nd req,
    In (Call_ubi_mkvol nd req) (trace_of (main 127 (-1) argv lib))
    /\ 0 = dev_num (snd (on_get_dev_info lib nd))
    /\ 0 <= fst (on_mkvol lib nd req)
    /\ 0 = snd (on_mkvol lib nd req).
Proof.
  apply (created_volume_is_queried 127 (-1)
           ["ubimkvol"; "/dev/ubi0"; "-N"; "data"; "-s"; "10MiB"]
           (sample_lib 126976 10539008) 0 0).
  vm_compute. tauto.
Defined.

Lemma issued_request_is_validated_witness :
  let argv := ["ubimkvol"; "/dev/ubi0"; "-N"; "data"; "-s"; "10MiB"] in
  let lib := sample_lib 126976 10539008 in
  exists id al b ty nm,
    {| req_vol_id := Init (-1);
       req_alignment := Init 1;
       req_bytes := Init 10485760;
       req_vol_type := Init UBI_DYNAMIC_VOLUME;
       req_name := Init (Some "data") |}
    = {| req_vol_id := Init id;
         req_alignment := Init al;
         req_bytes := Init b;
         req_vol_type := Init ty;
         req_name := Init (Some nm) |}
    /\ 0 < al
    /\ (id = -1 \/ 0 <= id)
    /\ to_int (strlen nm) <= 127
    /\ fst (on_get_info lib) = 0
    /\ fst (on_get_dev_info lib "/dev/ubi0") = 0
    /\ (has_keyb "m" (getopt_long (tl argv)) = false -> b <> 0).
Proof.
  apply (issued_request_is_validated 127 (-1)
           ["ubimkvol"; "/dev/ubi0"; "-N"; "data"; "-s"; "10MiB"]
           (sample_lib 126976 10539008) "/dev/ubi0").
  vm_compute. tauto.
Defined.

(** With a bound of 4 characters the name "data" is as long as a name may
    be. *)
Lemma name_length_bound_witness :
  let a := set_name (set_bytes (myargs (-1)) 1) (Some "data") 4 in
  let lib := sample_lib 126976 126976 in
  (strlen "data" <= 4 ->
   param_sanity_check 4 a lib = ([Call_ubi_get_info], Return 0))
  /\ (4 < strlen "data" ->
      param_sanity_check 4 a lib =
      ([Call_ubi_get_info; Errmsg (Too_long_name (strlen "data"))],
       Return (-1))).
Proof.
  apply (name_length_bound 4
           (set_name (set_bytes (myargs (-1)) 1) (Some "data") 4)
           (sample_lib 126976 126976) "data").
  - vm_compute. reflexivity.
  - vm_compute. reflexivity.
  - vm_compute. reflexivity.
  - vm_compute. reflexivity.
  - vm_compute. reflexivity.
Defined.

Example name_one_beyond_the_bound :
  param_sanity_check 4
    (set_name (set_bytes (myargs (-1)) 1) (Some "datum") 5)
    (sample_lib 126976 126976)
  = ([Call_ubi_get_info; Errmsg (Too_long_name 5)], Return (-1)).
Proof. vm_compute. reflexivity. Qed.

Lemma missing_name_reported_witness :
  main 127 (-1) ["ubimkvol"; "/dev/ubi0"; "-s"; "10MiB"]
    (sample_lib 126976 10539008)
  = (([] ++ [Call_libubi_open true; Errmsg Volume_name_not_specified;
             Call_libubi_close])%list, Return (-1)).
Proof.
  apply (missing_name_reported 127 (-1)
           ["ubimkvol"; "/dev/ubi0"; "-s"; "10MiB"]
           (sample_lib 126976 10539008) []
           (set_bytes (start (-1) ["ubimkvol"; "/dev/ubi0"]) 10485760)).
  - vm_compute. reflexivity.
  - vm_compute. reflexivity.
  - vm_compute. reflexivity.
  - vm_compute. reflexivity.
  - vm_compute. reflexivity.
Defined.


Lemma report_shows_requested_type_witness :
  let argv := ["ubimkvol"; "/dev/ubi0"; "-N"; "data"; "-s"; "1";
               "-t"; "static"] in
  let lib := sample_lib 126976 126976 in
  exists nd req dn id,
    In (Call_ubi_mkvol nd req) (trace_of (main 127 (-1) argv lib))
    /\ In (Call_ubi_get_vol_info1 dn id) (trace_of (main 127 (-1) argv lib))
    /\ fst (on_get_vol_info1 lib dn id) = 0
    /\ 126976 = eb_size (snd (on_get_vol_info1 lib dn id))
    /\ "data" = vi_name (snd (on_get_vol_info1 lib dn id))
    /\ Init UBI_STATIC_VOLUME = req_vol_type req
    /\ (exists v, Init UBI_STATIC_VOLUME = Init v)
    /\ 126976 <> 0.
Proof.
  apply (report_shows_requested_type 127 (-1)
           ["ubimkvol"; "/dev/ubi0"; "-N"; "data"; "-s"; "1"; "-t"; "static"]
           (sample_lib 126976 126976) 126976 (Init UBI_STATIC_VOLUME) "data").
  vm_compute. tauto.
Defined.

Lemma division_trap_in_report_witness :
  let argv := ["ubimkvol"; "/dev/ubi0"; "-N"; "data"; "-s"; "1"] in
  let lib := sample_lib 0 126976 in
  (exists dn id,
      In (Call_ubi_get_vol_info1 dn id) (trace_of (main 127 (-1) argv lib))
      /\ fst (on_get_vol_info1 lib dn id) = 0
      /\ (eb_size (snd (on_get_vol_info1 lib dn id)) = 0
          \/ (rsvd_bytes (snd (on_get_vol_info1 lib dn id)) = LLONG_MIN
              /\ eb_size (snd (on_get_vol_info1 lib dn id)) = -1)))
  /\ filter is_close (trace_of (main 127 (-1) argv lib)) = []
  /\ (forall v l b,
        ~ In (Printf_volume_id v l b) (trace_of (main 127 (-1) argv lib)))
  /\ (forall u b d,
        ~ In (Printf_size u b d) (trace_of (main 127 (-1) argv lib)))
  /\ (forall eb ty nm,
        ~ In (Printf_leb_size eb ty nm) (trace_of (main 127 (-1) argv lib))).
Proof.
  apply (division_trap_in_report 127 (-1)
           ["ubimkvol"; "/dev/ubi0"; "-N"; "data"; "-s"; "1"]
           (sample_lib 0 126976)).
  vm_compute. reflexivity.
Defined.

Lemma libubi_calls_in_order_witness :
  let argv := ["ubimkvol"; "/dev/ubi7"; "-N"; "data"; "-s"; "1"] in
  let lib := sample_lib 126976 126976 in
  let req := {| req_vol_id := Init (-1);
                req_alignment := Init 1;
                req_bytes := Init 1;
                req_vol_type := Init UBI_DYNAMIC_VOLUME;
                req_name := Init (Some "data") |} in
  exists k,
    (k <= 4)%nat
    /\ filter is_libubi_call (trace_of (main 127 (-1) argv lib)) =
       (Call_libubi_open true
        :: firstn k (calls_in_order "/dev/ubi7" req 0 0)
        ++ [Call_libubi_close])%list
    /\ ((3 <= k)%nat <->
        (2 <= k)%nat /\ fst (on_get_dev_info lib "/dev/ubi7") = 0).
Proof.
  destruct (proj2 (proj2 (libubi_calls_in_order 127 (-1)
              ["ubimkvol"; "/dev/ubi7"; "-N"; "data"; "-s"; "1"]
              (sample_lib 126976 126976)))
            []
            (set_bytes
               (set_name (start (-1) ["ubimkvol"; "/dev/ubi7"])
                  (Some "data") 4) 1)
            eq_refl eq_refl) as [_ H].
  destruct (H eq_refl) as (k & Hk & Hc & _ & _ & H3 & _).
  exists k. split; [exact Hk|]. split; [exact Hc|exact H3].
Defined.

(** The query on a node that does not exist fails, and the handle is closed
    at once. *)
Example calls_after_failed_device_query :
  filter is_libubi_call
    (trace_of (main 127 (-1)
                 ["ubimkvol"; "/dev/ubi7"; "-N"; "data"; "-s"; "1"]
                 (sample_lib 126976 126976)))
  = [Call_libubi_open true; Call_ubi_get_info;
     Call_ubi_get_dev_info "/dev/ubi7"; Call_libubi_close].
Proof. vm_compute. reflexivity. Qed.

(** An option without its argument, an unknown option and an ambiguous
    abbreviation all end the run in the same way. *)
Example size_without_argument :
  main 127 (-1) ["ubimkvol"; "/dev/ubi0"; "-N"; "data"; "-s"]
    (sample_lib 126976 126976)
  = ([Use_h_for_help], Exit (-1)).
Proof. vm_compute. reflexivity. Qed.

Example unknown_option :
  main 127 (-1) ["ubimkvol"; "/dev/ubi0"; "-x"; "-N"; "data"]
    (sample_lib 126976 126976)
  = ([Use_h_for_help], Exit (-1)).
Proof. vm_compute. reflexivity. Qed.

Example ambiguous_abbreviation :
  main 127 (-1) ["ubimkvol"; "/dev/ubi0"; "--v"] (sample_lib 126976 126976)
  = ([Use_h_for_help], Exit (-1)).
Proof. vm_compute. reflexivity. Qed.
